(** * vicebrowser: the application shell of [browser.py]

    A shallow embedding of the parts of [browser.py] that carry logic of
    their own: the address-bar classifier [is_url] and its JavaScript twin
    in the generated home page, the history/favorites store, the tab
    manager ([close_tab], zoom) and the manual edge-resize geometry of the
    frameless windows.  The web engine, Qt widgets and SQLite are
    collaborators; each is modelled by the piece of state the program reads
    back from it.

    Conventions.
    - A Python [str] is the [string] of its UTF-8 bytes.  The tests for
      ASCII patterns (prefix, suffix, containment) and the replacement of
      ASCII characters read the same on the bytes; where the program
      counts or cuts characters, the model counts and cuts characters too
      ([py_len], [py_take]).
    - A Python [int] is a [Z] (unbounded, as in Python).
    - A Python [float] is a binary64 [float]; [+] rounds to nearest even.
    - A [QUrl] is the string it is made from: a view holds the string
      last given to [setUrl(QUrl(...))].  What Qt's parser makes of that
      string (an invalid url, a decoded read-back) is Qt's and outside
      the model.
    - [None] is [None]; an uncaught exception is a result of its own. *)

From Stdlib Require Import ZArith String Ascii Bool Lia.
From Stdlib Require Import Floats.
From Stdlib Require Import Sorting.Sorted Sorting.Permutation.
From stdpp Require Import base list.

Local Open Scope string_scope.

(** ** Python string tests and exceptions *)

Module Py.

(** [text.startswith(p)] *)
Definition startswith (text p : string) : bool := String.prefix p text.

(** [text.startswith((p1, p2, ...))]: true when one of the tuple matches. *)
Definition startswith_any (text : string) (ps : list string) : bool :=
  existsb (startswith text) ps.

(** [text.endswith(p)]: some tail of [text] is [p]. *)
Fixpoint endswith (text p : string) : bool :=
  if String.eqb text p then true
  else match text with
       | EmptyString => false
       | String _ rest => endswith rest p
       end.

(** [needle in text]: [needle] is a prefix of some tail of [text]. *)
Fixpoint contains (needle text : string) : bool :=
  if String.prefix needle text then true
  else match text with
       | EmptyString => false
       | String _ rest => contains needle rest
       end.

(** The exceptions a modelled method can leave uncaught, and the result of
    a call that may raise one. *)
Inductive exn := AttributeError | TypeError.

Inductive outcome (A : Type) :=
| Returned (a : A)
| Raised (e : exn).
Arguments Returned {A} a.
Arguments Raised {A} e.

End Py.

(** ** URL-versus-query classification *)

Module Classifier.
Import Py.

(** [ViceCityBrowser.is_url] (the address bar). *)
Definition is_url (text : string) : bool :=
  if contains " " text then false
  else if contains "." text && negb (startswith text ".")
          && negb (endswith text ".") then true
  else if startswith_any text ["http://"; "https://"; "file://"; "ftp://"]
  then true
  else false.

(** The classifier of [performSearch], the script of the generated home
    page: JavaScript [includes], [startsWith] and [endsWith] are the same
    tests on the text. *)
Definition hasSpace (input : string) : bool := contains " " input.

Definition hasDot (input : string) : bool :=
  contains "." input && negb (startswith input ".")
  && negb (endswith input ".").

Definition hasScheme (input : string) : bool :=
  startswith input "http://" || startswith input "https://"
  || startswith input "file://" || startswith input "ftp://".

Definition isUrl (input : string) : bool :=
  hasScheme input || (hasDot input && negb (hasSpace input)).

(** What [performSearch] assigns to [window.location.href]: the input
    itself, the input behind [https://], or the engine's query URL
    ([encodeURIComponent] is the browser's).  [None]: the script returns
    without navigating (empty input).  For an engine name outside the
    table, which the form cannot produce, [searchUrls[engine]] is
    [undefined] and the concatenation starts with that word. *)
Definition searchUrls (engine : string) : option string :=
  if String.eqb engine "Google" then Some "https://www.google.com/search?q="
  else if String.eqb engine "DuckDuckGo" then Some "https://duckduckgo.com/?q="
  else if String.eqb engine "Bing" then Some "https://www.bing.com/search?q="
  else None.

Definition performSearch (encodeURIComponent : string -> string)
    (input engine : string) : option string :=
  if String.eqb input "" then None
  else if isUrl input then
    Some (if hasScheme input then input else "https://" ++ input)
  else
    Some (match searchUrls engine with
          | Some base => base
          | None => "undefined"
          end ++ encodeURIComponent input).

(** The address-bar dispatch of [navigate_to_url], on the stripped text:
    [navigate_target] is the string the code gives to [QUrl(...)] before
    [browser.setUrl(url)] (lines 1145-1151), not the url Qt parses from
    it.  [None]: the method returns without navigating (empty text), or
    the engine name is not a key of [search_engines]. *)
Definition search_engines (engine : string) : option (string -> string) :=
  if String.eqb engine "Google"
  then Some (fun q => "https://www.google.com/search?q=" ++ q)
  else if String.eqb engine "DuckDuckGo"
  then Some (fun q => "https://duckduckgo.com/?q=" ++ q)
  else if String.eqb engine "Bing"
  then Some (fun q => "https://www.bing.com/search?q=" ++ q)
  else None.

Definition navigate_target (text engine : string) : option string :=
  if String.eqb text "" then None
  else if is_url text then
    Some (if startswith_any text ["http://"; "https://"] then text
          else "https://" ++ text)
  else option_map (fun fmt => fmt text) (search_engines engine).

End Classifier.

(** ** The history and favorites store

    The two SQLite tables of [init_database].  A table is the list of its
    rows in insertion order, with the AUTOINCREMENT counter beside it;
    [CURRENT_TIMESTAMP] is the [now] each statement is run at. *)

Module Store.

Record history_row := {
  h_id : Z;
  h_url : string;
  h_title : string;
  h_timestamp : Z
}.

Record favorite_row := {
  f_id : Z;
  f_url : string;
  f_title : string;
  f_favicon : option string;
  f_timestamp : Z
}.

Record db := {
  history : list history_row;
  history_seq : Z;
  favorites : list favorite_row;
  favorites_seq : Z
}.

Definition empty : db :=
  {| history := []; history_seq := 0; favorites := []; favorites_seq := 0 |}.

(** [INSERT INTO history (url, title) VALUES (?, ?)] and commit. *)
Definition insert_history (now : Z) (url title : string) (d : db) : db :=
  let id := (history_seq d + 1)%Z in
  {| history := history d ++
       [{| h_id := id; h_url := url; h_title := title; h_timestamp := now |}];
     history_seq := id;
     favorites := favorites d;
     favorites_seq := favorites_seq d |}.

Definition has_url (url : string) (r : favorite_row) : bool :=
  String.eqb (f_url r) url.

(** [INSERT INTO favorites (url, title, favicon) VALUES (?, ?, ?)]:
    [None] is [sqlite3.IntegrityError], raised by the UNIQUE constraint on
    [url] when a row already holds it; the table is then as before. *)
Definition insert_favorite (now : Z) (url title : string)
    (favicon : option string) (d : db) : option db :=
  if existsb (has_url url) (favorites d) then None
  else
    let id := (favorites_seq d + 1)%Z in
    Some {| history := history d;
            history_seq := history_seq d;
            favorites := favorites d ++
              [{| f_id := id; f_url := url; f_title := title;
                  f_favicon := favicon; f_timestamp := now |}];
            favorites_seq := id |}.

(** [add_favorite]: [True] after the insert and commit, [False] when the
    insert raised [IntegrityError]. *)
Definition add_favorite (now : Z) (url title : string)
    (favicon : option string) (d : db) : bool * db :=
  match insert_favorite now url title favicon d with
  | Some d' => (true, d')
  | None => (false, d)
  end.

(** [remove_favorite]: [DELETE FROM favorites WHERE url = ?]. *)
Definition remove_favorite (url : string) (d : db) : db :=
  {| history := history d;
     history_seq := history_seq d;
     favorites := List.filter (fun r => negb (has_url url r)) (favorites d);
     favorites_seq := favorites_seq d |}.

(** [is_favorite]: [SELECT COUNT( * ) ... WHERE url = ?] is positive. *)
Definition is_favorite (url : string) (d : db) : bool :=
  (0 <? Z.of_nat (List.length (List.filter (has_url url) (favorites d))))%Z.

(** [ORDER BY timestamp DESC]: insertion into a list that is already in
    descending order; rows of one timestamp stay in table order. *)
Fixpoint insert_desc (r : favorite_row) (l : list favorite_row)
    : list favorite_row :=
  match l with
  | [] => [r]
  | r' :: l' =>
      if (f_timestamp r' <? f_timestamp r)%Z then r :: l
      else r' :: insert_desc r l'
  end.

Definition order_by_timestamp_desc (l : list favorite_row)
    : list favorite_row :=
  List.fold_left (fun acc r => insert_desc r acc) l [].

(** [get_favorites]: [SELECT id, url, title, favicon FROM favorites ORDER
    BY timestamp DESC], the rows as tuples. *)
Definition favorite_tuple : Type := Z * string * string * option string.

Definition get_favorites (d : db) : list favorite_tuple :=
  List.map (fun r => (f_id r, f_url r, f_title r, f_favicon r))
           (order_by_timestamp_desc (favorites d)).

(** The [url] column of a tuple of [get_favorites]. *)
Definition tuple_url (t : favorite_tuple) : string := snd (fst (fst t)).

End Store.

(** ** The application shell: tabs, zoom, URL bar, favorites toggle *)

Module Shell.
Import Py.

(** Python's [min(a, b)] and [max(a, b)] on floats: the first argument is
    kept unless the second is strictly smaller (resp. larger). *)
Definition py_min (a b : float) : float := if PrimFloat.ltb b a then b else a.
Definition py_max (a b : float) : float := if PrimFloat.ltb a b then b else a.

(** The literals of the source, as the binary64 values Python reads. *)
Definition lit_0_1 : float := 0x1.999999999999ap-4%float.   (* 0.1 *)
Definition lit_0_9 : float := 0x1.ccccccccccccdp-1%float.   (* 0.9 *)
Definition lit_0_25 : float := 0x1p-2%float.                (* 0.25 *)
Definition lit_1_0 : float := 0x1p+0%float.                 (* 1.0 *)
Definition lit_3_0 : float := 0x1.8p+1%float.               (* 3.0 *)

(** Python's [x in [a, b, ...]] on strings. *)
Definition in_list (x : string) (l : list string) : bool :=
  existsb (String.eqb x) l.

(** Python's truth value of a string. *)
Definition truthy (x : string) : bool := negb (String.eqb x "").

(** One [BrowserTab]: what the shell reads back from its web view.
    [view_id] is the identity of the view object; [favicon_url] is the
    value of [browser.iconUrl().toString() if browser.iconUrl() else None];
    [zoomFactor()] returns what [setZoomFactor] stored. *)
Record web_view := {
  view_id : nat;
  url : string;
  title : string;
  favicon_url : option string;
  zoomFactor : float
}.

Definition setUrl (u : string) (v : web_view) : web_view :=
  {| view_id := view_id v; url := u; title := title v;
     favicon_url := favicon_url v; zoomFactor := zoomFactor v |}.

Definition setZoomFactor (z : float) (v : web_view) : web_view :=
  {| view_id := view_id v; url := url v; title := title v;
     favicon_url := favicon_url v; zoomFactor := z |}.

(** A [QMessageBox] shown to the user. *)
Inductive message :=
| warning (caption text : string)
| information (caption text : string).

Record shell := {
  tabs : list web_view;          (* the pages of the QTabWidget, in order *)
  current_index : nat;           (* its currentIndex() *)
  home_url : string;
  url_bar : string;              (* the text of the URL bar *)
  favorite_btn : string;         (* the icon file asked for the star button *)
  store : Store.db;
  shown : list message           (* message boxes, oldest first *)
}.

Definition with_tabs (ts : list web_view) (c : nat) (s : shell) : shell :=
  {| tabs := ts; current_index := c; home_url := home_url s;
     url_bar := url_bar s; favorite_btn := favorite_btn s;
     store := store s; shown := shown s |}.

Definition with_home_url (h : string) (s : shell) : shell :=
  {| tabs := tabs s; current_index := current_index s; home_url := h;
     url_bar := url_bar s; favorite_btn := favorite_btn s;
     store := store s; shown := shown s |}.

Definition with_url_bar (t : string) (s : shell) : shell :=
  {| tabs := tabs s; current_index := current_index s; home_url := home_url s;
     url_bar := t; favorite_btn := favorite_btn s;
     store := store s; shown := shown s |}.

Definition with_favorite_btn (i : string) (s : shell) : shell :=
  {| tabs := tabs s; current_index := current_index s; home_url := home_url s;
     url_bar := url_bar s; favorite_btn := i;
     store := store s; shown := shown s |}.

Definition with_store (d : Store.db) (s : shell) : shell :=
  {| tabs := tabs s; current_index := current_index s; home_url := home_url s;
     url_bar := url_bar s; favorite_btn := favorite_btn s;
     store := d; shown := shown s |}.

Definition show (m : message) (s : shell) : shell :=
  {| tabs := tabs s; current_index := current_index s; home_url := home_url s;
     url_bar := url_bar s; favorite_btn := favorite_btn s;
     store := store s; shown := shown s ++ [m] |}.

(** [self.tabs.count()] *)
Definition count (s : shell) : nat := List.length (tabs s).

(** [current_browser]: the view of the current page, [None] without one. *)
Definition current_browser (s : shell) : option web_view :=
  tabs s !! current_index s.

(** A method call on [self.current_browser()]. *)
Definition on_current (f : web_view -> web_view) (s : shell) : shell :=
  with_tabs (alter f (current_index s) (tabs s)) (current_index s) s.

(** [QTabWidget.removeTab(i)]: nothing for an index out of range; the page
    is taken out and, under Qt's default selection behaviour, the current
    index stays on the same page, or moves to the right neighbour of a
    removed current page (the left one when it was last). *)
Definition removeTab (i : nat) (s : shell) : shell :=
  if (i <? List.length (tabs s))%nat then
    let rest := delete i (tabs s) in
    let cur := current_index s in
    let cur' :=
      if (i =? cur)%nat then Nat.min i (List.length rest - 1)
      else if (i <? cur)%nat then cur - 1
      else cur in
    with_tabs rest cur' s
  else s.

(** [close_tab] *)
Definition close_tab (i : nat) (s : shell) : outcome shell :=
  if (count s <? 2)%nat then
    match current_browser s with
    | None => Raised AttributeError
    | Some _ =>
        Returned (on_current (setZoomFactor lit_0_9)
                    (on_current (setUrl (home_url s)) s))
    end
  else Returned (removeTab i s).

(** [navigate_home] *)
Definition navigate_home (s : shell) : shell :=
  match current_browser s with
  | Some _ =>
      on_current (setZoomFactor lit_0_9) (on_current (setUrl (home_url s)) s)
  | None => s
  end.

(** [zoom_in], [zoom_out], [zoom_reset] *)
Definition zoom_in (s : shell) : shell :=
  match current_browser s with
  | Some browser =>
      let current_zoom := zoomFactor browser in
      let new_zoom := py_min (current_zoom + lit_0_1)%float lit_3_0 in
      on_current (setZoomFactor new_zoom) s
  | None => s
  end.

Definition zoom_out (s : shell) : shell :=
  match current_browser s with
  | Some browser =>
      let current_zoom := zoomFactor browser in
      let new_zoom := py_max (current_zoom - lit_0_1)%float lit_0_25 in
      on_current (setZoomFactor new_zoom) s
  | None => s
  end.

Definition zoom_reset (s : shell) : shell :=
  match current_browser s with
  | Some _ => on_current (setZoomFactor lit_1_0) s
  | None => s
  end.

(** [save_to_history], the handler of a view's [loadFinished]. *)
Definition save_to_history (now : Z) (browser : web_view) (s : shell)
    : shell :=
  let url := url browser in
  let title := title browser in
  if truthy url && negb (in_list url ["about:blank"; ""]) then
    with_store (Store.insert_history now url title (store s)) s
  else s.

(** [update_favorite_icon]: which icon the star button is given. *)
Definition update_favorite_icon (s : shell) : shell :=
  match current_browser s with
  | None => with_favorite_btn "add_star.svg" s
  | Some browser =>
      let url := url browser in
      if truthy url && negb (in_list url ["about:blank"; ""])
         && negb (startswith url "data:text/html")
      then
        if Store.is_favorite url (store s)
        then with_favorite_btn "star.svg" s
        else with_favorite_btn "add_star.svg" s
      else with_favorite_btn "add_star.svg" s
  end.

(** [update_urlbar(qurl, browser)]: [browser] is the identity of the view
    that sent [urlChanged], [None] for the default argument. *)
Definition update_urlbar (qurl : string) (browser : option nat) (s : shell)
    : shell :=
  if negb (bool_decide (browser = view_id <$> current_browser s)) then s
  else
    let url_string := qurl in
    let s1 := if startswith url_string "data:text/html"
              then with_url_bar "" s
              else with_url_bar url_string s in
    update_favorite_icon s1.

Section HomePage.

(** The document of [create_vice_city_homepage]: the percent-quoted HTML
    built from the favorites, for the assets and settings at hand. *)
Variable homepage_document : list Store.favorite_tuple -> string.

Definition create_vice_city_homepage (s : shell) : string :=
  "data:text/html;charset=utf-8,"
  ++ homepage_document (Store.get_favorites (store s)).

(** [refresh_homepage] *)
Definition refresh_homepage (s : shell) : shell :=
  let home := create_vice_city_homepage s in
  let s1 := with_home_url home s in
  with_tabs
    (List.map (fun tab => if startswith (url tab) "data:text/html"
                          then setUrl home tab else tab) (tabs s1))
    (current_index s1) s1.

(** [toggle_favorite] *)
Definition toggle_favorite (now : Z) (s : shell) : shell :=
  match current_browser s with
  | None => s
  | Some browser =>
      let url := url browser in
      let title := title browser in
      if negb (truthy url) || in_list url ["about:blank"; ""]
         || startswith url "data:text/html"
      then show (warning "Favorite" "Cannot favorite this page!") s
      else if Store.is_favorite url (store s) then
        let s1 := with_store (Store.remove_favorite url (store s)) s in
        let s2 := show (information "Favorite" "Removed from favorites!") s1 in
        update_favorite_icon (refresh_homepage s2)
      else
        let favicon := favicon_url browser in
        match Store.add_favorite now url title favicon (store s) with
        | (true, d) =>
            let s1 := with_store d s in
            let s2 := show (information "Favorite" "Added to favorites!") s1 in
            update_favorite_icon (refresh_homepage s2)
        | (false, d) =>
            show (warning "Favorite" "Already in favorites!") (with_store d s)
        end
  end.

End HomePage.

(** The zoom factor of the current view. *)
Definition current_zoom (s : shell) : option float :=
  zoomFactor <$> current_browser s.

(** One step of [zoom_in] on the factor itself. *)
Definition zoom_in_step (z : float) : float :=
  py_min (z + lit_0_1)%float lit_3_0.

(** [lit_0_25 <= z <= lit_3_0] *)
Definition in_zoom_range (z : float) : bool :=
  PrimFloat.leb lit_0_25 z && PrimFloat.leb z lit_3_0.

(** The tab strip as Qt keeps it once a page exists: the current index
    addresses a page.  [init_ui] opens the first tab. *)
Definition tab_strip_ok (s : shell) : Prop :=
  (current_index s < count s)%nat.

(** A window with one tab on a site, fresh store. *)
Definition example_view : web_view :=
  {| view_id := 0; url := "https://example.com/"; title := "Example Domain";
     favicon_url := None; zoomFactor := lit_1_0 |}.

Definition example_shell : shell :=
  {| tabs := [example_view]; current_index := 0;
     home_url := "data:text/html;charset=utf-8,%3Chtml%3E%3C/html%3E";
     url_bar := "https://example.com/"; favorite_btn := "add_star.svg";
     store := Store.empty; shown := [] |}.

End Shell.

(** ** Manual edge resize of the frameless windows

    [ViceCityBrowser] keeps the state below; the resize branch of
    [FramelessDialog.mouseMoveEvent] is the same text over the same
    fields. *)

Module Geometry.
Import Py.

(** The strings [get_resize_direction] returns. *)
Inductive direction :=
| top_left | top_right | bottom_left | bottom_right
| left | right | top | bottom.

Definition name (d : direction) : string :=
  match d with
  | top_left => "top_left"
  | top_right => "top_right"
  | bottom_left => "bottom_left"
  | bottom_right => "bottom_right"
  | left => "left"
  | right => "right"
  | top => "top"
  | bottom => "bottom"
  end.

Record QPoint := { px : Z; py : Z }.

Record QRect := { x : Z; y : Z; width : Z; height : Z }.

Record window := {
  geometry : QRect;
  minimumWidth : Z;
  minimumHeight : Z;
  resize_margin : Z;
  maximized : bool;                              (* isMaximized() *)
  resizing : bool;
  resize_direction : option direction;
  resize_start_pos : option QPoint;
  resize_start_geometry : option QRect
}.

Local Open Scope Z_scope.

(** [get_resize_direction(pos)], [pos] in window coordinates. *)
Definition get_resize_direction (pos : QPoint) (w : window)
    : option direction :=
  let on_left := px pos <=? resize_margin w in
  let on_right := width (geometry w) - resize_margin w <=? px pos in
  let on_top := py pos <=? resize_margin w in
  let on_bottom := height (geometry w) - resize_margin w <=? py pos in
  if on_top && on_left then Some top_left
  else if on_top && on_right then Some top_right
  else if on_bottom && on_left then Some bottom_left
  else if on_bottom && on_right then Some bottom_right
  else if on_left then Some left
  else if on_right then Some right
  else if on_top then Some top
  else if on_bottom then Some bottom
  else None.

(** The geometry a resize move computes (the body of the resize branch of
    [mouseMoveEvent]): [geo] is the geometry at press time, [delta] the
    pointer's move since then.  The four tests run in the order of the
    source, each on the values the previous ones left. *)
Definition resized (d : direction) (min_w min_h : Z) (geo : QRect)
    (delta : QPoint) : QRect :=
  let x0 := x geo in
  let y0 := y geo in
  let width0 := width geo in
  let height0 := height geo in
  let '(x1, width1) :=
    if contains "left" (name d) then
      let new_width := width0 - px delta in
      if min_w <=? new_width then (x geo + px delta, new_width)
      else (x0, width0)
    else (x0, width0) in
  let width2 :=
    if contains "right" (name d) then Z.max min_w (width1 + px delta)
    else width1 in
  let '(y1, height1) :=
    if contains "top" (name d) then
      let new_height := height0 - py delta in
      if min_h <=? new_height then (y geo + py delta, new_height)
      else (y0, height0)
    else (y0, height0) in
  let height2 :=
    if contains "bottom" (name d) then Z.max min_h (height1 + py delta)
    else height1 in
  {| x := x1; y := y1; width := width2; height := height2 |}.

Definition setGeometry (r : QRect) (w : window) : window :=
  {| geometry := r;
     minimumWidth := minimumWidth w; minimumHeight := minimumHeight w;
     resize_margin := resize_margin w; maximized := maximized w;
     resizing := resizing w; resize_direction := resize_direction w;
     resize_start_pos := resize_start_pos w;
     resize_start_geometry := resize_start_geometry w |}.

(** [mousePressEvent] for the left button at window position [pos] and
    screen position [global].  [native] says that the platform window
    offers [startSystemResize] for the edge, in which case the resize is
    the compositor's and [resizing] stays off. *)
Definition mousePressEvent (native : bool) (pos global : QPoint)
    (w : window) : window :=
  if negb (maximized w) then
    let dir := get_resize_direction pos w in
    match dir with
    | Some _ =>
        {| geometry := geometry w;
           minimumWidth := minimumWidth w; minimumHeight := minimumHeight w;
           resize_margin := resize_margin w; maximized := maximized w;
           resizing := if native then resizing w else true;
           resize_direction := dir;
           resize_start_pos :=
             if native then resize_start_pos w else Some global;
           resize_start_geometry :=
             if native then resize_start_geometry w else Some (geometry w) |}
    | None =>
        {| geometry := geometry w;
           minimumWidth := minimumWidth w; minimumHeight := minimumHeight w;
           resize_margin := resize_margin w; maximized := maximized w;
           resizing := resizing w;
           resize_direction := None;
           resize_start_pos := resize_start_pos w;
           resize_start_geometry := resize_start_geometry w |}
    end
  else w.

(** [mouseMoveEvent] with the pointer at screen position [global].  Outside
    a manual resize only the cursor shape changes. *)
Definition mouseMoveEvent (global : QPoint) (w : window) : outcome window :=
  match resizing w, resize_direction w with
  | true, Some d =>
      match resize_start_pos w, resize_start_geometry w with
      | Some start, Some geo =>
          let delta := {| px := px global - px start;
                          py := py global - py start |} in
          Returned (setGeometry
                      (resized d (minimumWidth w) (minimumHeight w) geo delta)
                      w)
      | None, _ => Raised TypeError
      | Some _, None => Raised AttributeError
      end
  | _, _ => Returned w
  end.

(** [mouseReleaseEvent] for the left button. *)
Definition mouseReleaseEvent (w : window) : window :=
  {| geometry := geometry w;
     minimumWidth := minimumWidth w; minimumHeight := minimumHeight w;
     resize_margin := resize_margin w; maximized := maximized w;
     resizing := false; resize_direction := None;
     resize_start_pos := resize_start_pos w;
     resize_start_geometry := resize_start_geometry w |}.

(** A window at (100,100) of size 800x600 with the main window's margin,
    for given minimum sizes. *)
Definition example_window (min_w min_h : Z) : window :=
  {| geometry := {| x := 100; y := 100; width := 800; height := 600 |};
     minimumWidth := min_w; minimumHeight := min_h;
     resize_margin := 10; maximized := false;
     resizing := false; resize_direction := None;
     resize_start_pos := None; resize_start_geometry := None |}.

End Geometry.

(** ** History and favorites maintenance from the dialogs *)

Module Dialogs.
Import Py Shell.

(** The button a [QMessageBox.question] is answered with. *)
Inductive reply := Yes | No.

Definition with_history (rows : list Store.history_row) (d : Store.db)
    : Store.db :=
  {| Store.history := rows;
     Store.history_seq := Store.history_seq d;
     Store.favorites := Store.favorites d;
     Store.favorites_seq := Store.favorites_seq d |}.

(** [DELETE FROM history WHERE id = ?] *)
Definition delete_history_row (history_id : Z) (d : Store.db) : Store.db :=
  with_history
    (List.filter (fun r => negb (Store.h_id r =? history_id)%Z)
                 (Store.history d)) d.

(** [DELETE FROM history] *)
Definition delete_history_all (d : Store.db) : Store.db := with_history [] d.

(** [DELETE FROM history WHERE timestamp >= ?].  The stamps are fixed-width
    [YYYY-MM-DD HH:MM:SS] texts, ordered as the seconds they denote. *)
Definition delete_history_since (cutoff : Z) (d : Store.db) : Store.db :=
  with_history
    (List.filter (fun r => negb (cutoff <=? Store.h_timestamp r)%Z)
                 (Store.history d)) d.

(** AUTOINCREMENT on [history.id]: the ids grow along the table and none
    is above the counter. *)
Definition history_ids_ok (d : Store.db) : Prop :=
  StronglySorted Z.lt (List.map Store.h_id (Store.history d))
  /\ List.Forall (fun i => (i <= Store.history_seq d)%Z)
                 (List.map Store.h_id (Store.history d)).

(** What [refresh_list] of [show_history] does besides rebuilding the
    list: with no entry left the dialog closes behind a message. *)
Definition history_refresh_list (s : shell) : shell :=
  match Store.history (store s) with
  | [] => show (information "History" "No more history entries!") s
  | _ :: _ => s
  end.

(** [delete_history_and_refresh], answered with [r]. *)
Definition delete_history_and_refresh (r : reply) (history_id : Z)
    (s : shell) : shell :=
  match r with
  | Yes =>
      history_refresh_list
        (with_store (delete_history_row history_id (store s)) s)
  | No => s
  end.

(** [clear_history_dialog(clear_type, ...)], answered with [r] when it
    asks; [local_now] is [datetime.now()] in seconds, a day is 86400 of
    them.  Another [clear_type] returns before asking. *)
Definition clear_history_dialog (clear_type : string) (r : reply)
    (local_now : Z) (s : shell) : shell :=
  if String.eqb clear_type "all" || String.eqb clear_type "recent"
     || String.eqb clear_type "week"
  then
    match r with
    | Yes =>
        let d :=
          if String.eqb clear_type "all" then delete_history_all (store s)
          else if String.eqb clear_type "recent"
          then delete_history_since (local_now - 1 * 86400) (store s)
          else delete_history_since (local_now - 7 * 86400) (store s) in
        history_refresh_list
          (show (information "History Cleared"
                   "Selected history has been cleared.")
                (with_store d s))
    | No => s
    end
  else s.

(** What [refresh_list] of [show_favorites] does besides rebuilding the
    list. *)
Definition favorites_refresh_list (s : shell) : shell :=
  match Store.get_favorites (store s) with
  | [] => show (information "Starred Pages" "No more starred pages!") s
  | _ :: _ => s
  end.

(** [delete_favorite_and_refresh], answered with [r]. *)
Definition delete_favorite_and_refresh
    (homepage_document : list Store.favorite_tuple -> string)
    (r : reply) (url : string) (s : shell) : shell :=
  match r with
  | Yes =>
      favorites_refresh_list
        (refresh_homepage homepage_document
           (with_store (Store.remove_favorite url (store s)) s))
  | No => s
  end.

End Dialogs.

(** ** The search engine selector *)

Module Toolbar.
Import Py.

(** [change_search_engine(engine_text)]: the new value of
    [current_search_engine], [current] being the old one. *)
Definition change_search_engine (engine_text current : string) : string :=
  if contains "Google" engine_text then "Google"
  else if contains "DuckDuckGo" engine_text then "DuckDuckGo"
  else if contains "Bing" engine_text then "Bing"
  else current.

End Toolbar.

(** ** The favorites section of the home page *)

Module HomeCards.
Import Py.

(** The double quote, and a text between double quotes. *)
Definition dq : string := String "034"%char "".

Definition quoted (text : string) : string := dq ++ text ++ dq.

(** [s.replace(old, new)] for a one-character [old]. *)
Fixpoint replace_char (old : ascii) (new s : string) : string :=
  match s with
  | EmptyString => EmptyString
  | String c rest =>
      if Ascii.eqb c old then new ++ replace_char old new rest
      else String c (replace_char old new rest)
  end.

(** A byte of the form 10xxxxxx continues a character of UTF-8 text. *)
Definition is_continuation (c : ascii) : bool :=
  match c with
  | Ascii _ _ _ _ _ _ b6 b7 => b7 && negb b6
  end.

(** [len(s)]: the characters of the text, one per byte that starts one. *)
Fixpoint py_len (s : string) : nat :=
  match s with
  | EmptyString => 0
  | String c rest =>
      if is_continuation c then py_len rest else S (py_len rest)
  end.

(** [s[:n]]: the first [n] characters, each with its continuation
    bytes. *)
Fixpoint py_take (n : nat) (s : string) : string :=
  match s with
  | EmptyString => EmptyString
  | String c rest =>
      if is_continuation c then String c (py_take n rest)
      else match n with
           | O => EmptyString
           | S k => String c (py_take k rest)
           end
  end.

(** The title of a card: the favorite's title, or its url without one,
    cut to 27 characters and an ellipsis when longer than 30, then
    escaped. *)
Definition escape (title : string) : string :=
  replace_char "034" "&quot;"
    (replace_char ">" "&gt;"
       (replace_char "<" "&lt;" (replace_char "&" "&amp;" title))).

Definition card_title (fav_url fav_title : string) : string :=
  let title := if Shell.truthy fav_title then fav_title else fav_url in
  let title := if (30 <? py_len title)%nat
               then py_take 27 title ++ "..."
               else title in
  escape title.

Definition favicon_html (fav_favicon : option string) : string :=
  match fav_favicon with
  | Some icon =>
      if Shell.truthy icon then
        "<img src=" ++ quoted icon ++ " class=" ++ quoted "fav-favicon"
        ++ " onerror=" ++ quoted "this.style.display='none'" ++ " />"
      else ""
  | None => ""
  end.

Definition card (fav : Store.favorite_tuple) : string :=
  let '(_, fav_url, fav_title, fav_favicon) := fav in
  "<a href=" ++ quoted fav_url ++ " class=" ++ quoted "favorite-card filled"
  ++ ">" ++ favicon_html fav_favicon
  ++ "<div class=" ++ quoted "fav-title" ++ ">"
  ++ card_title fav_url fav_title ++ "</div></a>".

Definition placeholder : string :=
  "<div class=" ++ quoted "favorite-card placeholder" ++ "></div>".

Definition section_open : string :=
  "<div class=" ++ quoted "favorites-section" ++ "><h2 class="
  ++ quoted "favorites-title" ++ ">FAVORITES</h2><div class="
  ++ quoted "favorites-grid" ++ ">".

(** [favorites_html] as [create_vice_city_homepage] builds it, appending
    card after card. *)
Definition favorites_html (favorites : list Store.favorite_tuple) : string :=
  let html := section_open in
  let html :=
    match favorites with
    | _ :: _ =>
        List.fold_left (fun acc fav => acc ++ card fav) (take 8 favorites)
                       html
    | [] =>
        List.fold_left (fun acc _ => acc ++ placeholder) (seq 0 5) html
    end in
  html ++ "</div></div>".

End HomeCards.

(** ** The title bar: dragging the window *)

Module TitleBar.
Import Geometry.
Local Open Scope Z_scope.

(** The bar with what it reads from its parent window: position and
    maximized state. *)
Record title_bar := {
  parent_pos : QPoint;
  parent_maximized : bool;
  bar_width : Z;
  bar_margin : Z;                       (* resize_margin, 8 *)
  drag_position : option QPoint
}.

Definition is_on_resize_edge (pos : QPoint) (t : title_bar) : bool :=
  let on_left := px pos <=? bar_margin t in
  let on_right := bar_width t - bar_margin t <=? px pos in
  let on_top := py pos <=? bar_margin t in
  on_left || on_right || on_top.

Definition with_drag (d : option QPoint) (t : title_bar) : title_bar :=
  {| parent_pos := parent_pos t; parent_maximized := parent_maximized t;
     bar_width := bar_width t; bar_margin := bar_margin t;
     drag_position := d |}.

Definition move (p : QPoint) (t : title_bar) : title_bar :=
  {| parent_pos := p; parent_maximized := parent_maximized t;
     bar_width := bar_width t; bar_margin := bar_margin t;
     drag_position := drag_position t |}.

(** [mousePressEvent] for the left button.  [native] says that the
    platform window offers [startSystemMove]. *)
Definition mousePressEvent (native : bool) (pos global : QPoint)
    (t : title_bar) : title_bar :=
  if is_on_resize_edge pos t then t
  else if negb (parent_maximized t) && native then t
  else
    with_drag (Some {| px := px global - px (parent_pos t);
                       py := py global - py (parent_pos t) |}) t.

(** [mouseMoveEvent]; [left_only] says that [event.buttons()] is the left
    button alone. *)
Definition mouseMoveEvent (left_only : bool) (global : QPoint)
    (t : title_bar) : title_bar :=
  match left_only, drag_position t with
  | true, Some d =>
      if negb (parent_maximized t)
      then move {| px := px global - px d; py := py global - py d |} t
      else t
  | _, _ => t
  end.

(** [mouseReleaseEvent], any button. *)
Definition mouseReleaseEvent (t : title_bar) : title_bar :=
  with_drag None t.

End TitleBar.

(** ** Edge flags for the native resize *)

Module Edges.
Import Py Geometry.

(** [Qt.Edge]: TopEdge, LeftEdge, RightEdge, BottomEdge. *)
Definition TopEdge : Z := 1.
Definition LeftEdge : Z := 2.
Definition RightEdge : Z := 4.
Definition BottomEdge : Z := 8.

(** [get_qt_edges(direction)] *)
Definition get_qt_edges (direction : string) : Z :=
  let edges := 0%Z in
  let edges := if contains "left" direction then Z.lor edges LeftEdge
               else edges in
  let edges := if contains "right" direction then Z.lor edges RightEdge
               else edges in
  let edges := if contains "top" direction then Z.lor edges TopEdge
               else edges in
  let edges := if contains "bottom" direction then Z.lor edges BottomEdge
               else edges in
  edges.

End Edges.

(** ** Sequences of pointer events *)

Module Pointer.
Import Py Geometry.

(** The main window as [ViceCityBrowser.__init__] leaves it; no minimum
    size is set, so Qt reports 0 for both. *)
Definition initial_window : window :=
  {| geometry := {| x := 100; y := 100; width := 1400; height := 900 |};
     minimumWidth := 0; minimumHeight := 0;
     resize_margin := 10; maximized := false;
     resizing := false; resize_direction := None;
     resize_start_pos := None; resize_start_geometry := None |}.

(** A left-button event reaching the window's handlers. *)
Inductive mouse_event :=
| Press (native : bool) (pos global : QPoint)
| Move (global : QPoint)
| Release.

Definition handle (e : mouse_event) (w : window) : outcome window :=
  match e with
  | Press native pos global => Returned (mousePressEvent native pos global w)
  | Move global => mouseMoveEvent global w
  | Release => Returned (mouseReleaseEvent w)
  end.

(** The events in turn, up to the first exception. *)
Fixpoint handle_all (es : list mouse_event) (w : window) : outcome window :=
  match es with
  | [] => Returned w
  | e :: rest =>
      match handle e w with
      | Returned w' => handle_all rest w'
      | Raised e => Raised e
      end
  end.

(** While [resizing] is on, the anchor of the resize is set. *)
Definition anchored (w : window) : Prop :=
  resizing w = true ->
  resize_start_pos w <> None /\ resize_start_geometry w <> None.

(** An event reaching the title bar's handlers. *)
Inductive bar_event :=
| BarPress (native : bool) (pos global : QPoint)
| BarMove (left_only : bool) (global : QPoint)
| BarRelease.

Definition bar_handle (e : bar_event) (t : TitleBar.title_bar)
    : TitleBar.title_bar :=
  match e with
  | BarPress native pos global => TitleBar.mousePressEvent native pos global t
  | BarMove left_only global => TitleBar.mouseMoveEvent left_only global t
  | BarRelease => TitleBar.mouseReleaseEvent t
  end.

Definition bar_handle_all (es : list bar_event) (t : TitleBar.title_bar)
    : TitleBar.title_bar :=
  List.fold_left (fun t e => bar_handle e t) es t.

End Pointer.

(** * Properties *)

(** ** String tests *)

Section StringFacts.
Import Py.

Lemma prefix_app (p r : string) : String.prefix p (p ++ r) = true.
Proof.
  induction p as [|c p IH]; simpl.
  - destruct r; reflexivity.
  - destruct (ascii_dec c c) as [_|n]; [exact IH | contradiction].
Qed.

Lemma prefix_split (p t : string) :
  String.prefix p t = true -> exists r, t = p ++ r.
Proof.
  revert t; induction p as [|c p IH]; intros t H.
  - exists t; reflexivity.
  - destruct t as [|d t]; simpl in H; [discriminate|].
    destruct (ascii_dec c d) as [->|_]; [|discriminate].
    destruct (IH t H) as [r ->]. exists r; reflexivity.
Qed.

(** [startswith] decides "is of the form [p ++ r]". *)
Lemma startswith_iff (text p : string) :
  startswith text p = true <-> exists r, text = p ++ r.
Proof.
  unfold startswith; split.
  - apply prefix_split.
  - intros [r ->]. apply prefix_app.
Qed.

Lemma contains_prefix (needle text : string) :
  String.prefix needle text = true -> contains needle text = true.
Proof. intros H. destruct text; cbn [contains]; rewrite H; reflexivity. Qed.

Lemma contains_app (needle a b : string) :
  contains needle (a ++ needle ++ b) = true.
Proof.
  induction a as [|c a IH].
  - cbn [String.append]. apply contains_prefix, prefix_app.
  - change (contains needle (String c (a ++ needle ++ b)) = true).
    cbn [contains]. rewrite IH.
    destruct (String.prefix needle (String c (a ++ needle ++ b))); reflexivity.
Qed.

Lemma contains_split (needle text : string) :
  contains needle text = true -> exists a b, text = a ++ needle ++ b.
Proof.
  induction text as [|c t IH]; cbn [contains].
  - destruct (String.prefix needle "") eqn:E; [|discriminate].
    intros _. destruct (prefix_split _ _ E) as [r Hr]. exists "", r. exact Hr.
  - destruct (String.prefix needle (String c t)) eqn:E.
    + intros _. destruct (prefix_split _ _ E) as [r Hr]. exists "", r. exact Hr.
    + intros H. destruct (IH H) as (a & b & ->). exists (String c a), b.
      reflexivity.
Qed.

(** [contains] decides "is of the form [a ++ needle ++ b]". *)
Lemma contains_iff (needle text : string) :
  contains needle text = true <-> exists a b, text = a ++ needle ++ b.
Proof.
  split.
  - apply contains_split.
  - intros (a & b & ->). apply contains_app.
Qed.

End StringFacts.

(** ** The two classifiers *)

Section ClassifierFacts.
Import Py Classifier.

Lemma startswith_any_schemes (text : string) :
  startswith_any text ["http://"; "https://"; "file://"; "ftp://"]
  = hasScheme text.
Proof.
  unfold startswith_any, hasScheme; cbn [existsb].
  rewrite orb_false_r, !orb_assoc. reflexivity.
Qed.

(** [is_url] as one boolean expression over the three tests. *)
Lemma is_url_tests (text : string) :
  is_url text = negb (hasSpace text) && (hasDot text || hasScheme text).
Proof.
  unfold is_url. rewrite startswith_any_schemes.
  fold (hasSpace text). fold (hasDot text).
  destruct (hasSpace text), (hasDot text), (hasScheme text); reflexivity.
Qed.

(** The two classifiers differ exactly on the texts that carry a scheme
    and a space: the page's script calls them URLs, the address bar does
    not. *)
Lemma classifiers_differ_iff (text : string) :
  isUrl text <> is_url text
  <-> hasScheme text = true /\ hasSpace text = true.
Proof.
  rewrite is_url_tests. unfold isUrl.
  destruct (hasSpace text), (hasDot text), (hasScheme text); cbn;
    intuition congruence.
Qed.

(** C3: a text that contains a space is a search query for the address
    bar ([is_url] answers [False]), whatever dots or scheme prefixes it
    has. *)
Theorem is_url_space_is_query (before after : string) :
  is_url (before ++ " " ++ after) = false.
Proof.
  unfold is_url. rewrite contains_app. reflexivity.
Qed.

(** C2, the input on which the claim fails: the address bar takes
    [https://example.com/a b] for a search query while the home page's
    script, whose comment says it matches [is_url], takes it for a URL. *)
Theorem classifiers_disagree :
  is_url "https://example.com/a b" = false
  /\ isUrl "https://example.com/a b" = true.
Proof. split; reflexivity. Qed.

(** C4 as stated fails: a text behind a scheme that also holds a space is
    not a URL for the address bar. *)
Lemma is_url_scheme_with_space :
  startswith "https://example.com/a b" "https://" = true
  /\ is_url "https://example.com/a b" = false.
Proof. split; reflexivity. Qed.

(** C4, amended: a text that starts with [http://], [https://],
    [file://] or [ftp://] and contains no space is a URL for the address
    bar. *)
Theorem is_url_scheme_without_space (scheme rest : string) :
  In scheme ["http://"; "https://"; "file://"; "ftp://"] ->
  (forall a b, scheme ++ rest <> a ++ " " ++ b) ->
  is_url (scheme ++ rest) = true.
Proof.
  intros Hs Hn. rewrite is_url_tests.
  assert (hasSpace (scheme ++ rest) = false) as ->.
  { unfold hasSpace. destruct (contains " " (scheme ++ rest)) eqn:E; [|reflexivity].
    apply contains_iff in E as (a & b & E). destruct (Hn a b E). }
  assert (hasScheme (scheme ++ rest) = true) as ->.
  { rewrite <- startswith_any_schemes. unfold startswith_any.
    apply existsb_exists. exists scheme. split; [exact Hs|].
    apply startswith_iff. exists rest; reflexivity. }
  rewrite orb_true_r. reflexivity.
Qed.

Lemma is_url_scheme_without_space_witness :
  is_url ("https://" ++ "example.com") = true.
Proof.
  apply (is_url_scheme_without_space "https://" "example.com").
  - cbn. tauto.
  - intros a b E.
    assert (contains " " ("https://" ++ "example.com") = true) as H
      by (rewrite E; apply contains_app).
    vm_compute in H. discriminate H.
Defined.

End ClassifierFacts.

(** ** The favorites table *)

Section StoreFacts.
Import Store.

Lemma has_url_iff (url : string) (r : favorite_row) :
  has_url url r = true <-> f_url r = url.
Proof. unfold has_url. apply String.eqb_eq. Qed.

(** No row holds [url]: the UNIQUE check lets the insert through. *)
Lemma existsb_has_url_false (url : string) (l : list favorite_row) :
  ~ In url (List.map f_url l) -> existsb (has_url url) l = false.
Proof.
  induction l as [|r l IH]; cbn [List.map existsb]; intros H; [reflexivity|].
  destruct (has_url url r) eqn:E.
  - apply has_url_iff in E. exfalso. apply H. left. exact E.
  - cbn. apply IH. intros Hin. apply H. right. exact Hin.
Qed.

Lemma count_none (url : string) (l : list favorite_row) :
  existsb (has_url url) l = false ->
  List.length (List.filter (has_url url) l) = 0%nat.
Proof.
  induction l as [|r l IH]; cbn [existsb List.filter]; [reflexivity|].
  destruct (has_url url r); cbn; [discriminate | exact IH].
Qed.

(** Ordering moves rows, it neither drops nor repeats one. *)
Lemma count_insert_desc (p : favorite_row -> bool) (r : favorite_row)
    (l : list favorite_row) :
  List.length (List.filter p (insert_desc r l))
  = List.length (List.filter p (r :: l)).
Proof.
  induction l as [|r' l IH]; [reflexivity|].
  cbn [insert_desc]. destruct (f_timestamp r' <? f_timestamp r)%Z;
    [reflexivity|].
  cbn [List.filter] in *.
  destruct (p r'), (p r); cbn [List.length] in *; rewrite IH; reflexivity.
Qed.

Lemma count_fold_insert (p : favorite_row -> bool)
    (l acc : list favorite_row) :
  List.length (List.filter p
                 (List.fold_left (fun a r => insert_desc r a) l acc))
  = (List.length (List.filter p l) + List.length (List.filter p acc))%nat.
Proof.
  revert acc; induction l as [|r l IH]; intros acc; [reflexivity|].
  cbn [List.fold_left]. rewrite IH, count_insert_desc.
  cbn [List.filter]. destruct (p r); cbn [List.length]; lia.
Qed.

Lemma count_order_by (p : favorite_row -> bool) (l : list favorite_row) :
  List.length (List.filter p (order_by_timestamp_desc l))
  = List.length (List.filter p l).
Proof.
  unfold order_by_timestamp_desc. rewrite count_fold_insert. cbn. lia.
Qed.

Lemma filter_map_length {A B : Type} (f : A -> B) (p : B -> bool)
    (l : list A) :
  List.length (List.filter p (List.map f l))
  = List.length (List.filter (fun a => p (f a)) l).
Proof.
  induction l as [|a l IH]; [reflexivity|].
  cbn [List.map List.filter]. destruct (p (f a)); cbn [List.length];
    rewrite IH; reflexivity.
Qed.

(** The rows [get_favorites] lists for a url are those the table holds. *)
Lemma count_get_favorites (url : string) (d : db) :
  List.length
    (List.filter (fun t => String.eqb (tuple_url t) url) (get_favorites d))
  = List.length (List.filter (has_url url) (favorites d)).
Proof.
  unfold get_favorites. rewrite filter_map_length.
  apply (count_order_by (has_url url)).
Qed.

(** C5: for a url the favorites table does not hold, [add_favorite]
    called twice in a row answers [True] and then [False]; the second call
    leaves the store as the first one made it, and [get_favorites] lists
    exactly one entry with that url. *)
Theorem add_favorite_twice (now1 now2 : Z) (url title : string)
    (favicon : option string) (d : db) :
  ~ In url (List.map f_url (favorites d)) ->
  exists d1,
    add_favorite now1 url title favicon d = (true, d1)
    /\ add_favorite now2 url title favicon d1 = (false, d1)
    /\ List.length
         (List.filter (fun t => String.eqb (tuple_url t) url)
                      (get_favorites d1)) = 1%nat.
Proof.
  intros Hnew. apply existsb_has_url_false in Hnew.
  unfold add_favorite at 1. unfold insert_favorite. rewrite Hnew.
  eexists; split; [reflexivity|].
  assert (has_url url
            {| f_id := favorites_seq d + 1; f_url := url; f_title := title;
               f_favicon := favicon; f_timestamp := now1 |} = true) as Hrow
    by (apply has_url_iff; reflexivity).
  split.
  - unfold add_favorite, insert_favorite. cbn [favorites].
    rewrite existsb_app. cbn [existsb]. rewrite Hrow, orb_true_r.
    reflexivity.
  - rewrite count_get_favorites. cbn [favorites].
    rewrite List.filter_app, List.length_app, (count_none _ _ Hnew).
    cbn [List.filter]. rewrite Hrow. reflexivity.
Qed.

Lemma add_favorite_twice_witness :
  exists d1,
    add_favorite 1000 "https://example.com/" "Example Domain" None empty
    = (true, d1)
    /\ add_favorite 1001 "https://example.com/" "Example Domain" None d1
       = (false, d1)
    /\ List.length
         (List.filter
            (fun t => String.eqb (tuple_url t) "https://example.com/")
            (get_favorites d1)) = 1%nat.
Proof.
  apply (add_favorite_twice 1000 1001 "https://example.com/"
           "Example Domain" None empty).
  cbn. tauto.
Defined.

End StoreFacts.

(** ** History writes *)

Section HistoryFacts.
Import Py Shell.

(** The blank pages are not recorded. *)
Lemma save_to_history_blank (now : Z) (browser : web_view) (s : shell) :
  url browser = "" \/ url browser = "about:blank" ->
  save_to_history now browser s = s.
Proof.
  unfold save_to_history. intros [-> | ->]; reflexivity.
Qed.

(** Every other url is recorded, by one new row. *)
Lemma save_to_history_other (now : Z) (browser : web_view) (s : shell) :
  url browser <> "" -> url browser <> "about:blank" ->
  save_to_history now browser s
  = with_store
      (Store.insert_history now (url browser) (title browser) (store s)) s.
Proof.
  intros H1 H2. unfold save_to_history, truthy, in_list. cbn [existsb].
  apply String.eqb_neq in H1, H2. rewrite H1, H2. reflexivity.
Qed.

(** C1, where the code leaves the claim: a view that shows the generated
    home page ([setUrl] of [create_vice_city_homepage], a
    [data:text/html] url) and finishes loading gets a history row like any
    site, although the sibling handlers set such urls apart. *)
Theorem save_to_history_records_home_page
    (homepage_document : list Store.favorite_tuple -> string)
    (now : Z) (view : web_view) (s : shell) :
  let home := create_vice_city_homepage homepage_document s in
  Store.history (store (save_to_history now (setUrl home view) s))
  = (Store.history (store s)
     ++ [{| Store.h_id := Store.history_seq (store s) + 1;
            Store.h_url := home;
            Store.h_title := title view;
            Store.h_timestamp := now |}])%list.
Proof. reflexivity. Qed.

End HistoryFacts.

(** ** Tabs *)

Section TabFacts.
Import Py Shell.

Lemma count_on_current (f : web_view -> web_view) (s : shell) :
  count (on_current f s) = count s.
Proof. unfold count, on_current. cbn. apply length_alter. Qed.

Lemma current_browser_on_current (f : web_view -> web_view) (s : shell) :
  current_browser (on_current f s) = f <$> current_browser s.
Proof. unfold current_browser, on_current. cbn. apply list_lookup_alter_eq. Qed.

(** A strip of one page: the current index is 0. *)
Lemma single_tab (s : shell) :
  tab_strip_ok s -> count s = 1%nat ->
  exists v, tabs s = [v] /\ current_index s = 0%nat.
Proof.
  unfold tab_strip_ok, count. intros Hok Hn.
  destruct (tabs s) as [|v [|v' l]]; cbn in *; try discriminate.
  exists v. split; [reflexivity | lia].
Qed.

Lemma count_removeTab (i : nat) (s : shell) :
  (i < count s)%nat -> count (removeTab i s) = (count s - 1)%nat.
Proof.
  unfold removeTab, count. intros Hi.
  destruct (Nat.ltb_spec i (List.length (tabs s))) as [_|Hge]; [|lia].
  cbn. apply length_delete, lookup_lt_is_Some_2, Hi.
Qed.

(** [close_tab] keeps the strip in the shape Qt gives it. *)
Lemma close_tab_strip_ok (i : nat) (s s' : shell) :
  tab_strip_ok s -> close_tab i s = Returned s' -> tab_strip_ok s'.
Proof.
  unfold close_tab, tab_strip_ok. intros Hok.
  destruct (Nat.ltb_spec (count s) 2) as [Hlt|Hge].
  - destruct (current_browser s); [|discriminate].
    intros [= <-]. rewrite !count_on_current. exact Hok.
  - intros [= <-]. unfold removeTab.
    destruct (Nat.ltb_spec i (List.length (tabs s))) as [Hi|Hi]; [|exact Hok].
    unfold count, with_tabs in *. cbn [tabs current_index].
    rewrite length_delete by (apply lookup_lt_is_Some_2, Hi).
    destruct (Nat.eqb_spec i (current_index s)) as [Heq|Hne];
      [|destruct (Nat.ltb_spec i (current_index s))]; lia.
Qed.

(** C6: on a tab strip with a current page, [close_tab] returns with at
    least one tab left: the only tab is kept, sent to the home page and
    set to zoom 0.9; of two or more tabs the addressed one is removed. *)
Theorem close_tab_keeps_a_tab (i : nat) (s : shell) :
  tab_strip_ok s ->
  exists s',
    close_tab i s = Returned s'
    /\ (1 <= count s')%nat
    /\ (count s = 1%nat ->
        exists v,
          tabs s = [v]
          /\ tabs s' = [setZoomFactor lit_0_9 (setUrl (home_url s) v)]
          /\ (url <$> current_browser s') = Some (home_url s')
          /\ (zoomFactor <$> current_browser s') = Some lit_0_9)
    /\ ((2 <= count s)%nat -> (i < count s)%nat ->
        tabs s' = delete i (tabs s)
        /\ count s' = (count s - 1)%nat).
Proof.
  intros Hok. unfold close_tab.
  destruct (Nat.ltb_spec (count s) 2) as [Hlt|Hge].
  - assert (count s = 1%nat) as H1 by (unfold tab_strip_ok in Hok; lia).
    destruct (single_tab s Hok H1) as (v & Hv & Hc).
    unfold current_browser at 1. rewrite Hv, Hc. cbn [lookup list_lookup].
    eexists; split; [reflexivity|].
    rewrite !count_on_current. split; [lia|]. split; [|lia].
    intros _. exists v. split; [reflexivity|].
    unfold current_browser, on_current, with_tabs.
    cbn [tabs current_index home_url]. rewrite Hv, Hc.
    repeat split; reflexivity.
  - eexists; split; [reflexivity|]. split.
    + unfold removeTab.
      destruct (Nat.ltb_spec i (List.length (tabs s))) as [Hi|Hi].
      * fold (count s) in Hi. pose proof (count_removeTab i s Hi) as E.
        unfold removeTab in E.
        destruct (Nat.ltb_spec i (List.length (tabs s))) as [_|Hn];
          [rewrite E; lia | unfold count in Hi; lia].
      * lia.
    + split; [lia|]. intros _ Hi. split.
      * unfold removeTab.
        destruct (Nat.ltb_spec i (List.length (tabs s))) as [_|Hn];
          [reflexivity | unfold count in Hi; lia].
      * apply count_removeTab, Hi.
Qed.

Lemma close_tab_keeps_a_tab_witness :
  exists s',
    close_tab 0 example_shell = Returned s'
    /\ (1 <= count s')%nat
    /\ (count example_shell = 1%nat ->
        exists v,
          tabs example_shell = [v]
          /\ tabs s' = [setZoomFactor lit_0_9
                          (setUrl (home_url example_shell) v)]
          /\ (url <$> current_browser s') = Some (home_url s')
          /\ (zoomFactor <$> current_browser s') = Some lit_0_9)
    /\ ((2 <= count example_shell)%nat -> (0 < count example_shell)%nat ->
        tabs s' = delete 0%nat (tabs example_shell)
        /\ count s' = (count example_shell - 1)%nat).
Proof.
  apply (close_tab_keeps_a_tab 0 example_shell).
  unfold tab_strip_ok. cbn. lia.
Defined.

End TabFacts.

(** ** Zoom *)

Section ZoomFacts.
Import Py Shell.

(** [zoom_in] acts on the current view's factor by [zoom_in_step]. *)
Lemma current_zoom_zoom_in (s : shell) :
  current_zoom (zoom_in s) = zoom_in_step <$> current_zoom s.
Proof.
  unfold current_zoom, zoom_in.
  destruct (current_browser s) as [v|] eqn:E.
  - rewrite current_browser_on_current, E. reflexivity.
  - rewrite E. reflexivity.
Qed.

Lemma current_zoom_iter (n : nat) (s : shell) :
  current_zoom (Nat.iter n zoom_in s)
  = Nat.iter n zoom_in_step <$> current_zoom s.
Proof.
  induction n as [|n IH].
  - change (Nat.iter 0 zoom_in s) with s.
    destruct (current_zoom s); reflexivity.
  - change (Nat.iter (S n) zoom_in s) with (zoom_in (Nat.iter n zoom_in s)).
    rewrite current_zoom_zoom_in, IH. destruct (current_zoom s); reflexivity.
Qed.

(** At the cap a further step changes nothing. *)
Lemma zoom_in_step_cap : zoom_in_step lit_3_0 = lit_3_0.
Proof. reflexivity. Qed.

(** From 1.0 the cap is reached by the twentieth step and kept. *)
Lemma zoom_in_steps_saturate (n : nat) :
  (20 <= n)%nat -> Nat.iter n zoom_in_step lit_1_0 = lit_3_0.
Proof.
  intros H. replace n with ((n - 20) + 20)%nat by lia.
  rewrite Nat.iter_add.
  change (Nat.iter 20 zoom_in_step lit_1_0) with lit_3_0.
  induction (n - 20)%nat as [|k IH].
  - reflexivity.
  - change (Nat.iter (S k) zoom_in_step lit_3_0)
      with (zoom_in_step (Nat.iter k zoom_in_step lit_3_0)).
    rewrite IH. apply zoom_in_step_cap.
Qed.

(** No step from 1.0 leaves the range from 0.25 to 3.0. *)
Lemma zoom_in_steps_in_range (n : nat) :
  in_zoom_range (Nat.iter n zoom_in_step lit_1_0) = true.
Proof.
  destruct (Nat.lt_ge_cases n 20) as [Hlt|Hge].
  - do 20 (destruct n as [|n]; [reflexivity|]). lia.
  - rewrite zoom_in_steps_saturate by exact Hge. reflexivity.
Qed.

(** C9 as stated fails: ten steps of binary64 addition of 0.1 from 1.0
    end at 2.000000000000001 (2 + 2^-50), which is not 2.0. *)
Lemma ten_zoom_in_is_not_two :
  current_zoom (Nat.iter 10 zoom_in example_shell)
  = Some 0x1.0000000000002p+1%float
  /\ PrimFloat.eqb 0x1.0000000000002p+1 0x1p+1 = false
  /\ current_zoom (Nat.iter 10 zoom_in example_shell) <> Some 0x1p+1%float.
Proof.
  split; [reflexivity|]. split; [reflexivity|].
  intros H.
  apply (f_equal (fun o => Prim2SF <$> o)) in H.
  vm_compute in H. discriminate H.
Qed.

(** C9, amended: from a zoom factor of 1.0, ten [zoom_in] calls yield
    2.000000000000001 (2 + 2^-50) and twenty-eight saturate at exactly
    3.0; each call sets the factor to [min(zoom + 0.1, 3.0)] in binary64,
    and every factor on the way lies in the range from 0.25 to 3.0. *)
Theorem zoom_in_from_one (s : shell) :
  current_zoom s = Some lit_1_0 ->
  current_zoom (Nat.iter 10 zoom_in s) = Some 0x1.0000000000002p+1%float
  /\ current_zoom (Nat.iter 28 zoom_in s) = Some lit_3_0
  /\ (forall n, current_zoom (Nat.iter (S n) zoom_in s)
                = zoom_in_step <$> current_zoom (Nat.iter n zoom_in s))
  /\ (forall n, exists z, current_zoom (Nat.iter n zoom_in s) = Some z
                          /\ in_zoom_range z = true).
Proof.
  intros H. repeat split.
  - rewrite current_zoom_iter, H. reflexivity.
  - rewrite current_zoom_iter, H. cbn [fmap option_fmap option_map].
    rewrite zoom_in_steps_saturate by lia. reflexivity.
  - intros n.
    change (Nat.iter (S n) zoom_in s) with (zoom_in (Nat.iter n zoom_in s)).
    apply current_zoom_zoom_in.
  - intros n. rewrite current_zoom_iter, H. eexists. split; [reflexivity|].
    apply zoom_in_steps_in_range.
Qed.

Lemma zoom_in_from_one_witness :
  current_zoom (Nat.iter 10 zoom_in example_shell)
  = Some 0x1.0000000000002p+1%float
  /\ current_zoom (Nat.iter 28 zoom_in example_shell) = Some lit_3_0
  /\ (forall n, current_zoom (Nat.iter (S n) zoom_in example_shell)
                = zoom_in_step
                    <$> current_zoom (Nat.iter n zoom_in example_shell))
  /\ (forall n, exists z,
         current_zoom (Nat.iter n zoom_in example_shell) = Some z
         /\ in_zoom_range z = true).
Proof.
  apply (zoom_in_from_one example_shell). reflexivity.
Defined.

End ZoomFacts.

(** ** Internal pages at the star button and the URL bar *)

Section InternalPageFacts.
Import Py Shell.

Lemma url_bar_update_favorite_icon (s : shell) :
  url_bar (update_favorite_icon s) = url_bar s.
Proof.
  unfold update_favorite_icon.
  destruct (current_browser s) as [v|]; [|reflexivity].
  destruct (_ && _); [|reflexivity].
  destruct (Store.is_favorite _ _); reflexivity.
Qed.

(** [update_urlbar] from a view that is not the current one does nothing. *)
Lemma update_urlbar_other_view (qurl : string) (sender : option nat)
    (s : shell) :
  sender <> (view_id <$> current_browser s) ->
  update_urlbar qurl sender s = s.
Proof.
  intros H. unfold update_urlbar.
  rewrite bool_decide_eq_false_2 by exact H. reflexivity.
Qed.

(** C10: any url that starts with [data:text/html], on the current view,
    is an internal page for the shell: [toggle_favorite] shows the
    warning and changes nothing else (the store is as before), and
    [update_urlbar] from the current view clears the URL bar; from any
    sender it either clears the bar or leaves the shell untouched.  The
    star button shows the plain icon. *)
Theorem data_url_is_internal
    (homepage_document : list Store.favorite_tuple -> string)
    (now : Z) (rest : string) (s : shell) (v : web_view) :
  current_browser s = Some v ->
  url v = "data:text/html" ++ rest ->
  toggle_favorite homepage_document now s
  = show (warning "Favorite" "Cannot favorite this page!") s
  /\ store (toggle_favorite homepage_document now s) = store s
  /\ url_bar (update_urlbar (url v) (Some (view_id v)) s) = ""
  /\ (forall sender,
        url_bar (update_urlbar (url v) sender s) = ""
        \/ update_urlbar (url v) sender s = s)
  /\ favorite_btn (update_favorite_icon s) = "add_star.svg".
Proof.
  intros Hcur Hurl.
  assert (startswith (url v) "data:text/html" = true) as Hdata
    by (apply startswith_iff; exists rest; exact Hurl).
  assert (toggle_favorite homepage_document now s
          = show (warning "Favorite" "Cannot favorite this page!") s) as Ht.
  { unfold toggle_favorite. rewrite Hcur, Hdata, orb_true_r. reflexivity. }
  assert (forall sender, sender = Some (view_id v) ->
            url_bar (update_urlbar (url v) sender s) = "") as Hclear.
  { intros sender ->. unfold update_urlbar. rewrite Hcur.
    cbn [fmap option_fmap option_map].
    rewrite bool_decide_eq_true_2 by reflexivity. cbn [negb].
    rewrite Hdata, url_bar_update_favorite_icon. reflexivity. }
  split; [exact Ht|]. split; [rewrite Ht; reflexivity|].
  split; [apply Hclear; reflexivity|]. split.
  - intros sender.
    destruct (decide (sender = Some (view_id v))) as [E|E].
    + left. apply Hclear, E.
    + right. apply update_urlbar_other_view. rewrite Hcur. exact E.
  - unfold update_favorite_icon. rewrite Hcur, Hdata.
    cbn [negb]. rewrite andb_false_r. reflexivity.
Qed.

Lemma data_url_is_internal_witness :
  let s := on_current (setUrl (home_url example_shell)) example_shell in
  toggle_favorite (fun _ => "%3Chtml%3E%3C/html%3E") 1000 s
  = show (warning "Favorite" "Cannot favorite this page!") s
  /\ store (toggle_favorite (fun _ => "%3Chtml%3E%3C/html%3E") 1000 s)
     = store s
  /\ url_bar (update_urlbar (home_url example_shell) (Some 0%nat) s) = ""
  /\ (forall sender,
        url_bar (update_urlbar (home_url example_shell) sender s) = ""
        \/ update_urlbar (home_url example_shell) sender s = s)
  /\ favorite_btn (update_favorite_icon s) = "add_star.svg".
Proof.
  exact (data_url_is_internal (fun _ => "%3Chtml%3E%3C/html%3E") 1000
           ";charset=utf-8,%3Chtml%3E%3C/html%3E"
           (on_current (setUrl (home_url example_shell)) example_shell)
           (setUrl (home_url example_shell) example_view)
           eq_refl eq_refl).
Defined.

End InternalPageFacts.

(** ** Manual resize *)

Section GeometryFacts.
Import Py Geometry.
Local Open Scope Z_scope.

(** Which edges a direction string names. *)
Lemma direction_edges (d : direction) :
  contains "left" (name d)
  = match d with left | top_left | bottom_left => true | _ => false end
  /\ contains "right" (name d)
     = match d with right | top_right | bottom_right => true | _ => false end
  /\ contains "top" (name d)
     = match d with top | top_left | top_right => true | _ => false end
  /\ contains "bottom" (name d)
     = match d with bottom | bottom_left | bottom_right => true | _ => false
       end.
Proof. destruct d; repeat split; reflexivity. Qed.

(** [resized] by cases: the direction, then the two minimum tests. *)
Ltac resized_cases d min_w min_h geo delta :=
  unfold resized;
  destruct (direction_edges d) as (-> & -> & -> & ->);
  destruct d;
  destruct (min_w <=? width geo - px delta);
  destruct (min_h <=? height geo - py delta);
  reflexivity.

(** The two axes of [resized] are independent; each reads as below. *)
Lemma resized_x_width (d : direction) (min_w min_h : Z) (geo : QRect)
    (delta : QPoint) :
  (x (resized d min_w min_h geo delta),
   width (resized d min_w min_h geo delta))
  = match d with
    | left | top_left | bottom_left =>
        if min_w <=? width geo - px delta
        then (x geo + px delta, width geo - px delta)
        else (x geo, width geo)
    | right | top_right | bottom_right =>
        (x geo, Z.max min_w (width geo + px delta))
    | top | bottom => (x geo, width geo)
    end.
Proof.
  resized_cases d min_w min_h geo delta.
Qed.

Lemma resized_y_height (d : direction) (min_w min_h : Z) (geo : QRect)
    (delta : QPoint) :
  (y (resized d min_w min_h geo delta),
   height (resized d min_w min_h geo delta))
  = match d with
    | top | top_left | top_right =>
        if min_h <=? height geo - py delta
        then (y geo + py delta, height geo - py delta)
        else (y geo, height geo)
    | bottom | bottom_left | bottom_right =>
        (y geo, Z.max min_h (height geo + py delta))
    | left | right => (y geo, height geo)
    end.
Proof.
  resized_cases d min_w min_h geo delta.
Qed.

(** X20: a resize move never takes the size below the minimum size, if
    the geometry at press time respected it. *)
Lemma resized_respects_minimum (d : direction) (min_w min_h : Z)
    (geo : QRect) (delta : QPoint) :
  min_w <= width geo -> min_h <= height geo ->
  min_w <= width (resized d min_w min_h geo delta)
  /\ min_h <= height (resized d min_w min_h geo delta).
Proof.
  intros Hw Hh.
  pose proof (resized_x_width d min_w min_h geo delta) as Ex.
  pose proof (resized_y_height d min_w min_h geo delta) as Ey.
  destruct d;
    repeat match goal with
           | H : context [?a <=? ?b] |- _ => destruct (Z.leb_spec a b)
           end;
    apply (f_equal snd) in Ex, Ey; cbn [snd] in Ex, Ey; lia.
Qed.

(** C7 as stated fails for the left edge: a drag that would make the
    window 300 wide against a minimum of 400 leaves it 800 wide, not
    clamped to 400. *)
Lemma left_drag_below_minimum :
  let w := mousePressEvent false {| px := 0; py := 300 |}
             {| px := 100; py := 400 |} (example_window 400 300) in
  (resizing w = true /\ resize_direction w = Some left)
  /\ width (geometry w) - (600 - 100) < minimumWidth w
  /\ mouseMoveEvent {| px := 600; py := 400 |} w = Returned w
  /\ width (geometry w) = 800
  /\ minimumWidth w = 400.
Proof. cbv zeta. repeat split. Qed.

(** C7, amended: in a manual resize-drag with a right edge active
    (right, top_right, bottom_right), when the delta would bring the
    width below the minimum width, the width is clamped to the minimum
    and the origin on that axis is unchanged; likewise for the height
    with a bottom edge active (bottom, bottom_left, bottom_right). *)
Theorem resize_below_minimum (w : window) (d : direction)
    (start global : QPoint) (geo : QRect) :
  resizing w = true ->
  resize_direction w = Some d ->
  resize_start_pos w = Some start ->
  resize_start_geometry w = Some geo ->
  exists w',
    mouseMoveEvent global w = Returned w'
    /\ (In d [right; top_right; bottom_right] ->
        width geo + (px global - px start) < minimumWidth w ->
        width (geometry w') = minimumWidth w /\ x (geometry w') = x geo)
    /\ (In d [bottom; bottom_left; bottom_right] ->
        height geo + (py global - py start) < minimumHeight w ->
        height (geometry w') = minimumHeight w /\ y (geometry w') = y geo).
Proof.
  intros Hr Hd Hs Hg. unfold mouseMoveEvent. rewrite Hr, Hd, Hs, Hg.
  eexists; split; [reflexivity|]. cbn [geometry setGeometry].
  set (delta := {| px := px global - px start; py := py global - py start |}).
  pose proof (resized_x_width d (minimumWidth w) (minimumHeight w) geo delta)
    as Ex.
  pose proof (resized_y_height d (minimumWidth w) (minimumHeight w) geo delta)
    as Ey.
  cbn [px py delta] in Ex, Ey.
  split; intros Hin Hlt; cbn [In] in Hin;
    destruct d; try (exfalso; intuition discriminate);
    repeat match type of Ex with
           | context [?a <=? ?b] => destruct (Z.leb_spec a b)
           end;
    repeat match type of Ey with
           | context [?a <=? ?b] => destruct (Z.leb_spec a b)
           end;
    pose proof (f_equal fst Ex) as Ex1; pose proof (f_equal snd Ex) as Ex2;
    pose proof (f_equal fst Ey) as Ey1; pose proof (f_equal snd Ey) as Ey2;
    cbn [fst snd] in Ex1, Ex2, Ey1, Ey2; lia.
Qed.

Lemma resize_below_minimum_witness :
  exists w',
    mouseMoveEvent {| px := 300; py := 200 |}
      (mousePressEvent false {| px := 795; py := 595 |}
         {| px := 895; py := 695 |} (example_window 400 300))
    = Returned w'
    /\ (width (geometry w') = 400 /\ x (geometry w') = 100)
    /\ (height (geometry w') = 300 /\ y (geometry w') = 100).
Proof.
  destruct (resize_below_minimum
              (mousePressEvent false {| px := 795; py := 595 |}
                 {| px := 895; py := 695 |} (example_window 400 300))
              bottom_right {| px := 895; py := 695 |}
              {| px := 300; py := 200 |}
              {| x := 100; y := 100; width := 800; height := 600 |}
              eq_refl eq_refl eq_refl eq_refl)
    as (w' & E & Hright & Hbottom).
  exists w'. split; [exact E|]. split.
  - apply Hright; [cbn; tauto | reflexivity].
  - apply Hbottom; [cbn; tauto | reflexivity].
Defined.

(** C8 as stated fails: a minimum size of 790x595 is below 800x600, yet
    the top_left drag by (+20,+10) would go under it and is dropped; the
    window stays 800x600 at (100,100). *)
Lemma top_left_drag_minimum_between :
  let w := mousePressEvent false {| px := 0; py := 0 |}
             {| px := 100; py := 100 |} (example_window 790 595) in
  (minimumWidth w < 800 /\ minimumHeight w < 600)
  /\ (resizing w = true /\ resize_direction w = Some top_left)
  /\ mouseMoveEvent {| px := 100 + 20; py := 100 + 10 |} w = Returned w
  /\ geometry w = {| x := 100; y := 100; width := 800; height := 600 |}.
Proof. cbv zeta. repeat split. Qed.

(** The state a manual press leaves: resizing from the pressed edge,
    anchored at the pointer and the geometry of that moment. *)
Lemma mousePressEvent_manual (pos global : QPoint) (w : window)
    (d : direction) :
  maximized w = false ->
  get_resize_direction pos w = Some d ->
  let w1 := mousePressEvent false pos global w in
  resizing w1 = true
  /\ resize_direction w1 = Some d
  /\ resize_start_pos w1 = Some global
  /\ resize_start_geometry w1 = Some (geometry w)
  /\ minimumWidth w1 = minimumWidth w
  /\ minimumHeight w1 = minimumHeight w.
Proof.
  intros Hm Hd. unfold mousePressEvent. rewrite Hm, Hd. cbn.
  repeat split; reflexivity.
Qed.

(** C8, amended: for a window of size 800x600 at origin (100,100) whose
    minimum size is below those values, a manual resize-drag from the
    bottom_right edge by (+50,+30) yields 850x630 at the same origin; and
    when the minimum size is moreover at most 780x590, one from the
    top_left edge by (+20,+10) yields 780x590 at (120,110). *)
Theorem resize_drag_800x600 (w : window) (pos global : QPoint) :
  geometry w = {| x := 100; y := 100; width := 800; height := 600 |} ->
  maximized w = false ->
  minimumWidth w < 800 ->
  minimumHeight w < 600 ->
  (get_resize_direction pos w = Some bottom_right ->
   exists w',
     mouseMoveEvent {| px := px global + 50; py := py global + 30 |}
       (mousePressEvent false pos global w) = Returned w'
     /\ geometry w'
        = {| x := 100; y := 100; width := 850; height := 630 |})
  /\ (get_resize_direction pos w = Some top_left ->
      minimumWidth w <= 780 ->
      minimumHeight w <= 590 ->
      exists w',
        mouseMoveEvent {| px := px global + 20; py := py global + 10 |}
          (mousePressEvent false pos global w) = Returned w'
        /\ geometry w'
           = {| x := 120; y := 110; width := 780; height := 590 |}).
Proof.
  intros Hgeo Hmax Hw Hh.
  split; intros Hd;
    destruct (mousePressEvent_manual pos global w _ Hmax Hd)
      as (Hr & Hd1 & Hs & Hg & Hmw & Hmh);
    unfold mouseMoveEvent; rewrite Hr, Hd1, Hs, Hg, Hmw, Hmh, Hgeo.
  - eexists; (split; [reflexivity|]); cbn [geometry setGeometry px py].
    unfold resized. cbn -[Z.max Z.leb Z.add Z.sub].
    replace (px global + 50 - px global) with 50 by lia.
    replace (py global + 30 - py global) with 30 by lia.
    f_equal; lia.
  - intros Hw' Hh'.
    eexists; (split; [reflexivity|]); cbn [geometry setGeometry px py].
    unfold resized. cbn -[Z.max Z.leb Z.add Z.sub].
    replace (px global + 20 - px global) with 20 by lia.
    replace (py global + 10 - py global) with 10 by lia.
    destruct (Z.leb_spec (minimumWidth w) (800 - 20)); [|lia].
    destruct (Z.leb_spec (minimumHeight w) (600 - 10)); [|lia].
    reflexivity.
Qed.

Lemma resize_drag_800x600_witness :
  (exists w',
     mouseMoveEvent {| px := 895 + 50; py := 695 + 30 |}
       (mousePressEvent false {| px := 795; py := 595 |}
          {| px := 895; py := 695 |} (example_window 790 595)) = Returned w'
     /\ geometry w' = {| x := 100; y := 100; width := 850; height := 630 |})
  /\ (exists w',
        mouseMoveEvent {| px := 100 + 20; py := 100 + 10 |}
          (mousePressEvent false {| px := 0; py := 0 |}
             {| px := 100; py := 100 |} (example_window 780 590))
        = Returned w'
        /\ geometry w'
           = {| x := 120; y := 110; width := 780; height := 590 |}).
Proof.
  split.
  - apply (resize_drag_800x600 (example_window 790 595)
             {| px := 795; py := 595 |} {| px := 895; py := 695 |});
      cbn; (reflexivity || lia).
  - apply (resize_drag_800x600 (example_window 780 590)
             {| px := 0; py := 0 |} {| px := 100; py := 100 |});
      cbn; (reflexivity || lia).
Defined.

End GeometryFacts.

(** ** More on the favorites table *)

Section FavoritesTableFacts.
Import Store.

Lemma existsb_has_url_true (url : string) (l : list favorite_row) :
  existsb (has_url url) l = true <-> In url (List.map f_url l).
Proof.
  rewrite existsb_exists, in_map_iff. split.
  - intros (r & Hin & H). exists r. split; [apply has_url_iff, H | exact Hin].
  - intros (r & H & Hin). exists r. split; [exact Hin | apply has_url_iff, H].
Qed.

(** [is_favorite] is membership of the url in the table. *)
Lemma is_favorite_existsb (url : string) (d : db) :
  is_favorite url d = existsb (has_url url) (favorites d).
Proof.
  unfold is_favorite.
  induction (favorites d) as [|r l IH]; [reflexivity|].
  cbn [List.filter existsb]. destruct (has_url url r).
  - cbn [List.length orb]. apply Z.ltb_lt. lia.
  - exact IH.
Qed.

Lemma map_filter_not_in (url : string) (l : list favorite_row) :
  ~ In url (List.map f_url (List.filter (fun r => negb (has_url url r)) l)).
Proof.
  rewrite in_map_iff. intros (r & H & Hin).
  apply List.filter_In in Hin as [_ Hin].
  apply has_url_iff in H. rewrite H in Hin. discriminate Hin.
Qed.

Lemma NoDup_map_filter (p : favorite_row -> bool) (l : list favorite_row) :
  List.NoDup (List.map f_url l) ->
  List.NoDup (List.map f_url (List.filter p l)).
Proof.
  induction l as [|r l IH]; cbn [List.map List.filter]; intros H;
    [constructor|].
  apply List.NoDup_cons_iff in H as [Hr Hl].
  destruct (p r); [|exact (IH Hl)].
  cbn [List.map]. apply List.NoDup_cons; [|exact (IH Hl)].
  intros Hin. apply Hr. apply in_map_iff in Hin as (r' & E & Hin).
  apply in_map_iff. exists r'. split; [exact E|].
  apply List.filter_In in Hin. tauto.
Qed.

(** X1: the favorites table never holds a url twice: [add_favorite] and
    [remove_favorite] keep the urls of the rows pairwise different. *)
Theorem favorites_stay_unique (now : Z) (url title : string)
    (favicon : option string) (d : db) :
  List.NoDup (List.map f_url (favorites d)) ->
  List.NoDup
    (List.map f_url (favorites (snd (add_favorite now url title favicon d))))
  /\ List.NoDup (List.map f_url (favorites (remove_favorite url d))).
Proof.
  intros H. split.
  - unfold add_favorite, insert_favorite.
    destruct (existsb (has_url url) (favorites d)) eqn:E; [exact H|].
    cbn [snd favorites]. rewrite List.map_app. cbn [List.map f_url].
    apply List.NoDup_app; [exact H | repeat constructor; intros [] |].
    intros u Hu [<-|[]].
    apply existsb_has_url_true in Hu. congruence.
  - apply NoDup_map_filter, H.
Qed.

Lemma favorites_stay_unique_witness :
  List.NoDup
    (List.map f_url
       (favorites (snd (add_favorite 1000 "https://example.com/"
                          "Example Domain" None empty))))
  /\ List.NoDup
       (List.map f_url (favorites (remove_favorite "https://example.com/"
                                     empty))).
Proof.
  apply (favorites_stay_unique 1000 "https://example.com/" "Example Domain"
           None empty).
  constructor.
Defined.

Lemma is_favorite_added (now : Z) (url title : string)
    (favicon : option string) (d : db) :
  is_favorite url (snd (add_favorite now url title favicon d)) = true.
Proof.
  rewrite is_favorite_existsb. unfold add_favorite, insert_favorite.
  destruct (existsb (has_url url) (favorites d)) eqn:E; [exact E|].
  cbn [snd favorites]. rewrite existsb_app. cbn [existsb].
  replace (has_url url _) with true
    by (symmetry; apply has_url_iff; reflexivity).
  rewrite orb_true_r. reflexivity.
Qed.

Lemma is_favorite_removed (url : string) (d : db) :
  is_favorite url (remove_favorite url d) = false.
Proof.
  rewrite is_favorite_existsb.
  destruct (existsb (has_url url) (favorites (remove_favorite url d)))
    eqn:E; [|reflexivity].
  apply existsb_has_url_true in E. destruct (map_filter_not_in _ _ E).
Qed.

(** X2: whatever [add_favorite] answers, the url is a favorite
    afterwards; after [remove_favorite] it is not. *)
Theorem is_favorite_after_add_remove (now : Z) (url title : string)
    (favicon : option string) (d : db) :
  is_favorite url (snd (add_favorite now url title favicon d)) = true
  /\ is_favorite url (remove_favorite url d) = false.
Proof.
  split; [apply is_favorite_added | apply is_favorite_removed].
Qed.

(** X3: adding or removing one url does not change whether another url
    is a favorite. *)
Theorem is_favorite_other_url (now : Z) (url other title : string)
    (favicon : option string) (d : db) :
  other <> url ->
  is_favorite other (snd (add_favorite now url title favicon d))
  = is_favorite other d
  /\ is_favorite other (remove_favorite url d) = is_favorite other d.
Proof.
  intros Hne. rewrite !is_favorite_existsb. split.
  - unfold add_favorite, insert_favorite.
    destruct (existsb (has_url url) (favorites d)); [reflexivity|].
    cbn [snd favorites]. rewrite existsb_app. cbn [existsb].
    replace (has_url other _) with false.
    + rewrite !orb_false_r. reflexivity.
    + symmetry. apply not_true_is_false. intros E.
      apply has_url_iff in E. cbn in E. congruence.
  - cbn [remove_favorite favorites].
    induction (favorites d) as [|r l IH]; [reflexivity|].
    cbn [List.filter existsb].
    destruct (has_url url r) eqn:Eu; cbn [negb existsb].
    + replace (has_url other r) with false; [exact IH|].
      symmetry. apply not_true_is_false. intros E.
      apply has_url_iff in E, Eu. congruence.
    + rewrite IH. reflexivity.
Qed.

Lemma is_favorite_other_url_witness :
  is_favorite "https://rocq-prover.org/"
    (snd (add_favorite 1000 "https://example.com/" "Example Domain" None
            empty))
  = is_favorite "https://rocq-prover.org/" empty
  /\ is_favorite "https://rocq-prover.org/"
       (remove_favorite "https://example.com/" empty)
     = is_favorite "https://rocq-prover.org/" empty.
Proof.
  apply (is_favorite_other_url 1000 "https://example.com/"
           "https://rocq-prover.org/" "Example Domain" None empty).
  discriminate.
Defined.

Lemma filter_none (url : string) (l : list favorite_row) :
  ~ In url (List.map f_url l) ->
  List.filter (fun r => negb (has_url url r)) l = l.
Proof.
  induction l as [|r l IH]; cbn [List.map List.filter]; intros H;
    [reflexivity|].
  destruct (has_url url r) eqn:E.
  - apply has_url_iff in E. exfalso. apply H. left. exact E.
  - cbn [negb]. rewrite IH; [reflexivity|]. intros Hin. apply H. right.
    exact Hin.
Qed.

Lemma rows_after_add_remove (now : Z) (url title : string)
    (favicon : option string) (d : db) :
  ~ In url (List.map f_url (favorites d)) ->
  favorites (remove_favorite url (snd (add_favorite now url title favicon d)))
  = favorites d.
Proof.
  intros H. unfold add_favorite, insert_favorite.
  rewrite (existsb_has_url_false _ _ H). cbn [snd remove_favorite favorites].
  rewrite List.filter_app, (filter_none _ _ H). cbn [List.filter].
  replace (has_url url _) with true
    by (symmetry; apply has_url_iff; reflexivity).
  cbn [negb]. apply List.app_nil_r.
Qed.

(** X4: starring a new url and unstarring it again gives back the rows
    the table had; only the id counter has moved on. *)
Theorem add_then_remove_favorite (now : Z) (url title : string)
    (favicon : option string) (d : db) :
  ~ In url (List.map f_url (favorites d)) ->
  favorites (remove_favorite url (snd (add_favorite now url title favicon d)))
  = favorites d
  /\ favorites_seq
       (remove_favorite url (snd (add_favorite now url title favicon d)))
     = (favorites_seq d + 1)%Z.
Proof.
  intros H. split; [apply rows_after_add_remove, H|].
  unfold add_favorite, insert_favorite.
  rewrite (existsb_has_url_false _ _ H). reflexivity.
Qed.

Lemma add_then_remove_favorite_witness :
  favorites
    (remove_favorite "https://example.com/"
       (snd (add_favorite 1000 "https://example.com/" "Example Domain" None
               empty)))
  = favorites empty
  /\ favorites_seq
       (remove_favorite "https://example.com/"
          (snd (add_favorite 1000 "https://example.com/" "Example Domain"
                  None empty)))
     = (favorites_seq empty + 1)%Z.
Proof.
  apply (add_then_remove_favorite 1000 "https://example.com/"
           "Example Domain" None empty).
  cbn. tauto.
Defined.

Lemma insert_desc_perm (r : favorite_row) (l : list favorite_row) :
  Permutation (insert_desc r l) (r :: l).
Proof.
  induction l as [|r' l IH]; [reflexivity|].
  cbn [insert_desc]. destruct (f_timestamp r' <? f_timestamp r)%Z;
    [reflexivity|].
  rewrite IH. apply perm_swap.
Qed.

Lemma insert_desc_sorted (r : favorite_row) (l : list favorite_row) :
  StronglySorted (fun a b => (f_timestamp b <= f_timestamp a)%Z) l ->
  StronglySorted (fun a b => (f_timestamp b <= f_timestamp a)%Z)
                 (insert_desc r l).
Proof.
  induction l as [|r' l IH]; intros H.
  - repeat constructor.
  - apply StronglySorted_inv in H as [Hl Hall]. cbn [insert_desc].
    destruct (Z.ltb_spec (f_timestamp r') (f_timestamp r)) as [Hlt|Hge].
    + constructor; [constructor; assumption|].
      constructor; [lia|].
      eapply List.Forall_impl; [|exact Hall]. cbn. intros; lia.
    + constructor; [exact (IH Hl)|].
      eapply Permutation_Forall; [symmetry; apply insert_desc_perm|].
      constructor; [lia | exact Hall].
Qed.

Lemma order_by_fold (l acc : list favorite_row) :
  StronglySorted (fun a b => (f_timestamp b <= f_timestamp a)%Z) acc ->
  Permutation (List.fold_left (fun a r => insert_desc r a) l acc) (l ++ acc)
  /\ StronglySorted (fun a b => (f_timestamp b <= f_timestamp a)%Z)
       (List.fold_left (fun a r => insert_desc r a) l acc).
Proof.
  revert acc; induction l as [|r l IH]; intros acc H; cbn [List.fold_left].
  - split; [reflexivity | exact H].
  - destruct (IH (insert_desc r acc) (insert_desc_sorted r acc H)) as [P S].
    split; [|exact S].
    rewrite P, insert_desc_perm. cbn. symmetry. apply Permutation_middle.
Qed.

(** X5: [get_favorites] lists every row of the table once, newest
    first. *)
Theorem get_favorites_newest_first (d : db) :
  exists rows,
    get_favorites d
    = List.map (fun r => (f_id r, f_url r, f_title r, f_favicon r)) rows
    /\ Permutation rows (favorites d)
    /\ StronglySorted (fun a b => (f_timestamp b <= f_timestamp a)%Z) rows.
Proof.
  exists (order_by_timestamp_desc (favorites d)). split; [reflexivity|].
  unfold order_by_timestamp_desc.
  destruct (order_by_fold (favorites d) [] (SSorted_nil _)) as [P S].
  split; [|exact S]. rewrite P. rewrite List.app_nil_r. reflexivity.
Qed.

End FavoritesTableFacts.

(** ** History maintenance *)

Section HistoryMaintenanceFacts.
Import Py Shell Dialogs.

(** The refresh of the list changes nothing but the message boxes. *)
Lemma history_refresh_list_keeps (s : shell) :
  store (history_refresh_list s) = store s
  /\ tabs (history_refresh_list s) = tabs s.
Proof.
  unfold history_refresh_list. destruct (Store.history (store s));
    split; reflexivity.
Qed.

Lemma sorted_ids_filter (p : Store.history_row -> bool)
    (l : list Store.history_row) :
  StronglySorted Z.lt (List.map Store.h_id l) ->
  StronglySorted Z.lt (List.map Store.h_id (List.filter p l)).
Proof.
  induction l as [|r l IH]; cbn [List.map List.filter]; intros H;
    [constructor|].
  apply StronglySorted_inv in H as [Hl Hall].
  destruct (p r); [|exact (IH Hl)].
  cbn [List.map]. constructor; [exact (IH Hl)|].
  rewrite List.Forall_forall in *. intros i Hi. apply Hall.
  apply in_map_iff in Hi as (r' & <- & Hin). apply in_map.
  apply List.filter_In in Hin. tauto.
Qed.

Lemma bounded_ids_filter (p : Store.history_row -> bool) (bound : Z)
    (l : list Store.history_row) :
  List.Forall (fun i => (i <= bound)%Z) (List.map Store.h_id l) ->
  List.Forall (fun i => (i <= bound)%Z)
              (List.map Store.h_id (List.filter p l)).
Proof.
  rewrite !List.Forall_forall. intros H i Hi. apply H.
  apply in_map_iff in Hi as (r & <- & Hin). apply in_map.
  apply List.filter_In in Hin. tauto.
Qed.

(** X6: history ids are never reused: a store whose ids grow along the
    table below the counter stays so under a visit and under each of the
    deletions, and a new row gets an id above all ids in the table. *)
Theorem history_ids_stay_ok (now cutoff history_id : Z) (url title : string)
    (d : Store.db) :
  history_ids_ok d ->
  history_ids_ok (Store.insert_history now url title d)
  /\ history_ids_ok (delete_history_row history_id d)
  /\ history_ids_ok (delete_history_since cutoff d)
  /\ history_ids_ok (delete_history_all d)
  /\ List.Forall (fun r => (Store.h_id r < Store.history_seq d + 1)%Z)
                 (Store.history d).
Proof.
  intros [Hs Hb]. unfold history_ids_ok.
  assert (List.Forall (fun i => (i < Store.history_seq d + 1)%Z)
            (List.map Store.h_id (Store.history d))) as Hlt
    by (eapply List.Forall_impl; [|exact Hb]; cbn; intros; lia).
  repeat split.
  - cbn [Store.insert_history Store.history]. rewrite List.map_app.
    cbn [List.map Store.h_id].
    induction (List.map Store.h_id (Store.history d)) as [|i l IH];
      cbn [app].
    + repeat constructor.
    + apply StronglySorted_inv in Hs as [Hl Hall].
      apply List.Forall_cons_iff in Hb as [_ Hb].
      apply List.Forall_cons_iff in Hlt as [Hi Hlt].
      constructor; [exact (IH Hl Hb Hlt)|].
      apply List.Forall_app. split; [exact Hall | repeat constructor; lia].
  - cbn [Store.insert_history Store.history Store.history_seq].
    rewrite List.map_app. apply List.Forall_app. split.
    + eapply List.Forall_impl; [|exact Hb]. cbn. intros; lia.
    + repeat constructor. cbn. lia.
  - apply sorted_ids_filter, Hs.
  - apply bounded_ids_filter, Hb.
  - apply sorted_ids_filter, Hs.
  - apply bounded_ids_filter, Hb.
  - constructor.
  - constructor.
  - rewrite List.Forall_map in Hlt. exact Hlt.
Qed.

Lemma history_ids_stay_ok_witness :
  history_ids_ok (Store.insert_history 1000 "https://example.com/"
                    "Example Domain" Store.empty)
  /\ history_ids_ok (delete_history_row 1 Store.empty)
  /\ history_ids_ok (delete_history_since 0 Store.empty)
  /\ history_ids_ok (delete_history_all Store.empty)
  /\ List.Forall
       (fun r => (Store.h_id r < Store.history_seq Store.empty + 1)%Z)
       (Store.history Store.empty).
Proof.
  apply (history_ids_stay_ok 1000 0 1 "https://example.com/"
           "Example Domain" Store.empty).
  split; constructor.
Defined.

Lemma sorted_ids_unique (l : list Store.history_row)
    (r r' : Store.history_row) :
  StronglySorted Z.lt (List.map Store.h_id l) ->
  In r l -> In r' l -> Store.h_id r = Store.h_id r' -> r = r'.
Proof.
  induction l as [|a l IH]; cbn [List.map]; intros H Hr Hr' E; [destruct Hr|].
  apply StronglySorted_inv in H as [Hl Hall].
  rewrite List.Forall_forall in Hall.
  destruct Hr as [<-|Hr], Hr' as [<-|Hr'].
  - reflexivity.
  - pose proof (Hall _ (in_map Store.h_id _ _ Hr')). lia.
  - pose proof (Hall _ (in_map Store.h_id _ _ Hr)). lia.
  - exact (IH Hl Hr Hr' E).
Qed.

Lemma filter_length_one_out (l : list Store.history_row)
    (r : Store.history_row) :
  StronglySorted Z.lt (List.map Store.h_id l) -> In r l ->
  S (List.length
       (List.filter (fun r' => negb (Store.h_id r' =? Store.h_id r)%Z) l))
  = List.length l.
Proof.
  induction l as [|a l IH]; cbn [List.map]; intros H Hr; [destruct Hr|].
  apply StronglySorted_inv in H as [Hl Hall].
  rewrite List.Forall_forall in Hall. cbn [List.filter].
  destruct Hr as [<-|Hr].
  - rewrite Z.eqb_refl. cbn [negb List.length]. f_equal.
    f_equal. clear IH Hl. induction l as [|b l IH]; [reflexivity|].
    cbn [List.filter].
    assert (Store.h_id a < Store.h_id b)%Z as Hlt
      by (apply Hall; left; reflexivity).
    destruct (Z.eqb_spec (Store.h_id b) (Store.h_id a)); [lia|].
    cbn [negb]. f_equal. apply IH. intros i Hi. apply Hall. right. exact Hi.
  - assert (Store.h_id a < Store.h_id r)%Z as Hlt
      by (apply Hall, in_map, Hr).
    destruct (Z.eqb_spec (Store.h_id a) (Store.h_id r)); [lia|].
    cbn [negb List.length]. f_equal. exact (IH Hl Hr).
Qed.

(** X7: confirming the deletion of a listed history entry removes that
    entry and no other: the table is one row shorter and holds exactly
    the other rows. *)
Theorem delete_history_entry_removes_one (r : Store.history_row)
    (s : shell) :
  history_ids_ok (store s) ->
  In r (Store.history (store s)) ->
  let s' := delete_history_and_refresh Yes (Store.h_id r) s in
  S (List.length (Store.history (store s')))
  = List.length (Store.history (store s))
  /\ (forall r', In r' (Store.history (store s'))
                 <-> In r' (Store.history (store s)) /\ r' <> r).
Proof.
  intros [Hs _] Hr. cbv zeta.
  assert (store (delete_history_and_refresh Yes (Store.h_id r) s)
          = delete_history_row (Store.h_id r) (store s)) as ->.
  { unfold delete_history_and_refresh.
    rewrite (proj1 (history_refresh_list_keeps _)). reflexivity. }
  cbn [delete_history_row with_history Store.history]. split.
  - apply filter_length_one_out; assumption.
  - intros r'. rewrite List.filter_In. split.
    + intros [Hin Hne]. split; [exact Hin|]. intros ->.
      rewrite Z.eqb_refl in Hne. discriminate Hne.
    + intros [Hin Hne]. split; [exact Hin|].
      destruct (Z.eqb_spec (Store.h_id r') (Store.h_id r)) as [E|_];
        [|reflexivity].
      destruct Hne. exact (sorted_ids_unique _ _ _ Hs Hin Hr E).
Qed.

Lemma delete_history_entry_removes_one_witness :
  let r := {| Store.h_id := 1; Store.h_url := "https://example.com/";
              Store.h_title := "Example Domain";
              Store.h_timestamp := 1000 |} in
  let s := save_to_history 1000 example_view example_shell in
  let s' := delete_history_and_refresh Yes 1 s in
  S (List.length (Store.history (store s')))
  = List.length (Store.history (store s))
  /\ (forall r', In r' (Store.history (store s'))
                 <-> In r' (Store.history (store s)) /\ r' <> r).
Proof.
  apply (delete_history_entry_removes_one
           {| Store.h_id := 1; Store.h_url := "https://example.com/";
              Store.h_title := "Example Domain";
              Store.h_timestamp := 1000 |}
           (save_to_history 1000 example_view example_shell)).
  - split; repeat constructor. cbn. lia.
  - left. reflexivity.
Defined.

Lemma clear_history_dialog_keeps (clear_type : string) (r : reply)
    (local_now : Z) (s : shell) :
  Store.favorites (store (clear_history_dialog clear_type r local_now s))
  = Store.favorites (store s)
  /\ tabs (clear_history_dialog clear_type r local_now s) = tabs s.
Proof.
  unfold clear_history_dialog.
  destruct (_ || _); [|split; reflexivity].
  destruct r; [|split; reflexivity].
  rewrite (proj1 (history_refresh_list_keeps _)),
    (proj2 (history_refresh_list_keeps _)).
  destruct (String.eqb clear_type "all");
    [|destruct (String.eqb clear_type "recent")]; split; reflexivity.
Qed.

(** X8: declining the question leaves the shell as it was; confirming
    "all" empties the history; and no answer to any clear request
    touches the favorites or the tabs. *)
Theorem clear_history_dialog_effects (clear_type : string) (r : reply)
    (local_now : Z) (s : shell) :
  clear_history_dialog clear_type No local_now s = s
  /\ Store.history (store (clear_history_dialog "all" Yes local_now s)) = []
  /\ Store.favorites (store (clear_history_dialog clear_type r local_now s))
     = Store.favorites (store s)
  /\ tabs (clear_history_dialog clear_type r local_now s) = tabs s.
Proof.
  split; [|split; [|apply clear_history_dialog_keeps]].
  - unfold clear_history_dialog. destruct (_ || _); reflexivity.
  - reflexivity.
Qed.

Lemma store_clear_since (days local_now : Z) (s : shell) :
  store (history_refresh_list
           (show (information "History Cleared"
                    "Selected history has been cleared.")
              (with_store
                 (delete_history_since (local_now - days * 86400) (store s))
                 s)))
  = delete_history_since (local_now - days * 86400) (store s).
Proof.
  rewrite (proj1 (history_refresh_list_keeps _)). reflexivity.
Qed.

(** X9: confirming "recent" keeps exactly the entries stamped before
    [local_now] minus one day, confirming "week" exactly those stamped
    before [local_now] minus seven days; whatever "week" keeps, "recent"
    keeps too. *)
Theorem clear_history_recent_and_week (local_now : Z) (s : shell) :
  let recent :=
    Store.history (store (clear_history_dialog "recent" Yes local_now s)) in
  let week :=
    Store.history (store (clear_history_dialog "week" Yes local_now s)) in
  (forall r, In r recent
             <-> In r (Store.history (store s))
                 /\ (Store.h_timestamp r < local_now - 86400)%Z)
  /\ (forall r, In r week
                <-> In r (Store.history (store s))
                    /\ (Store.h_timestamp r < local_now - 604800)%Z)
  /\ (forall r, In r week -> In r recent).
Proof.
  cbv zeta. unfold clear_history_dialog.
  cbn [String.eqb Ascii.eqb Bool.eqb orb].
  rewrite (store_clear_since 1), (store_clear_since 7).
  cbn [delete_history_since with_history Store.history].
  assert (forall c r,
            In r (List.filter
                    (fun r => negb (c <=? Store.h_timestamp r)%Z)
                    (Store.history (store s)))
            <-> In r (Store.history (store s))
                /\ (Store.h_timestamp r < c)%Z) as H.
  { intros c r. rewrite List.filter_In.
    destruct (Z.leb_spec c (Store.h_timestamp r)); cbn [negb];
      intuition (try discriminate; try lia). }
  split; [|split].
  - intros r. rewrite H. intuition lia.
  - intros r. rewrite H. intuition lia.
  - intros r. rewrite !H. intuition lia.
Qed.

End HistoryMaintenanceFacts.

(** ** The star button and the home page refresh *)

Section ToggleFacts.
Import Py Shell.

Variable homepage_document : list Store.favorite_tuple -> string.

(** [update_favorite_icon] changes the star button only. *)
Lemma update_favorite_icon_keeps (s : shell) :
  tabs (update_favorite_icon s) = tabs s
  /\ current_index (update_favorite_icon s) = current_index s
  /\ store (update_favorite_icon s) = store s
  /\ shown (update_favorite_icon s) = shown s
  /\ home_url (update_favorite_icon s) = home_url s.
Proof.
  unfold update_favorite_icon.
  destruct (current_browser s) as [v|]; [|repeat split].
  destruct (_ && _); [|repeat split].
  destruct (Store.is_favorite _ _); repeat split.
Qed.

Lemma lookup_map (f : web_view -> web_view) (l : list web_view) (i : nat) :
  List.map f l !! i = f <$> l !! i.
Proof.
  revert i; induction l as [|v l IH]; intros [|i]; cbn; try reflexivity.
  apply IH.
Qed.

(** A generated home url is a [data:text/html] url. *)
Lemma home_is_data_url (s : shell) :
  startswith (create_vice_city_homepage homepage_document s)
             "data:text/html" = true.
Proof. reflexivity. Qed.

(** After [refresh_homepage] the current view is the one before, sent to
    the new home page if it showed a [data:text/html] url. *)
Lemma current_browser_refresh_homepage (s : shell) :
  current_browser (refresh_homepage homepage_document s)
  = (fun tab => if startswith (url tab) "data:text/html"
                then setUrl (create_vice_city_homepage homepage_document s)
                            tab
                else tab) <$> current_browser s.
Proof. unfold current_browser, refresh_homepage. cbn. apply lookup_map. Qed.

(** X10: [refresh_homepage] run twice is [refresh_homepage] run once, and
    it keeps the number of tabs, the current index and the store. *)
Theorem refresh_homepage_idempotent (s : shell) :
  refresh_homepage homepage_document (refresh_homepage homepage_document s)
  = refresh_homepage homepage_document s
  /\ count (refresh_homepage homepage_document s) = count s
  /\ current_index (refresh_homepage homepage_document s) = current_index s
  /\ store (refresh_homepage homepage_document s) = store s.
Proof.
  split; [|split; [unfold count, refresh_homepage; cbn;
                   apply List.length_map | split; reflexivity]].
  unfold refresh_homepage at 1 3.
  cbn [tabs current_index home_url url_bar favorite_btn store shown
       with_tabs with_home_url refresh_homepage].
  change (create_vice_city_homepage homepage_document
            (refresh_homepage homepage_document s))
    with (create_vice_city_homepage homepage_document s).
  unfold with_tabs, with_home_url. cbn. f_equal.
  rewrite List.map_map. apply List.map_ext. intros v.
  destruct (startswith (url v) "data:text/html") eqn:E.
  - reflexivity.
  - rewrite E. reflexivity.
Qed.

(** X11: [refresh_homepage] leaves a tab on a site as it is and points a
    tab on a [data:text/html] url to the new home url. *)
Theorem refresh_homepage_tab (s : shell) (i : nat) (v : web_view) :
  tabs s !! i = Some v ->
  exists v',
    tabs (refresh_homepage homepage_document s) !! i = Some v'
    /\ (startswith (url v) "data:text/html" = false -> v' = v)
    /\ (startswith (url v) "data:text/html" = true ->
        url v' = home_url (refresh_homepage homepage_document s)
        /\ zoomFactor v' = zoomFactor v /\ view_id v' = view_id v).
Proof.
  intros H. unfold refresh_homepage. cbn [tabs with_tabs home_url with_home_url].
  rewrite lookup_map, H. cbn [fmap option_fmap option_map].
  eexists; split; [reflexivity|].
  destruct (startswith (url v) "data:text/html"); split; intros E;
    try discriminate E; repeat split.
Qed.

(** X12: [toggle_favorite] never shows "Already in favorites!": it shows
    nothing (no current view) or exactly one of the three other
    messages. *)
Theorem toggle_favorite_messages (now : Z) (s : shell) :
  shown (toggle_favorite homepage_document now s) = shown s
  \/ exists m,
       shown (toggle_favorite homepage_document now s)
       = (shown s ++ [m])%list
       /\ In m [warning "Favorite" "Cannot favorite this page!";
                information "Favorite" "Removed from favorites!";
                information "Favorite" "Added to favorites!"].
Proof.
  unfold toggle_favorite.
  destruct (current_browser s) as [v|]; [|left; reflexivity]. right.
  destruct (_ || _).
  - eexists; split; [reflexivity | cbn; tauto].
  - destruct (Store.is_favorite (url v) (store s)) eqn:E.
    + eexists; split.
      * rewrite (proj1 (proj2 (proj2 (proj2
                   (update_favorite_icon_keeps _))))).
        reflexivity.
      * cbn; tauto.
    + rewrite is_favorite_existsb in E.
      unfold Store.add_favorite, Store.insert_favorite. rewrite E.
      eexists; split.
      * rewrite (proj1 (proj2 (proj2 (proj2
                   (update_favorite_icon_keeps _))))).
        reflexivity.
      * cbn; tauto.
Qed.

(** On a site, [toggle_favorite] is one of the two store updates followed
    by the refresh of the home page and of the star. *)
Lemma toggle_favorite_on_site (now : Z) (s : shell) (v : web_view) :
  current_browser s = Some v ->
  url v <> "" -> url v <> "about:blank" ->
  startswith (url v) "data:text/html" = false ->
  toggle_favorite homepage_document now s
  = if Store.is_favorite (url v) (store s)
    then update_favorite_icon
           (refresh_homepage homepage_document
              (show (information "Favorite" "Removed from favorites!")
                 (with_store (Store.remove_favorite (url v) (store s)) s)))
    else update_favorite_icon
           (refresh_homepage homepage_document
              (show (information "Favorite" "Added to favorites!")
                 (with_store
                    (snd (Store.add_favorite now (url v) (title v)
                            (favicon_url v) (store s))) s))).
Proof.
  intros Hc H1 H2 H3. unfold toggle_favorite. rewrite Hc.
  unfold truthy, in_list. cbn [existsb].
  apply String.eqb_neq in H1, H2. rewrite H1, H2, H3. cbn [negb orb].
  destruct (Store.is_favorite (url v) (store s)) eqn:E; [reflexivity|].
  rewrite is_favorite_existsb in E.
  unfold Store.add_favorite, Store.insert_favorite. rewrite E. reflexivity.
Qed.

Lemma current_browser_after_toggle (s : shell) (v : web_view) :
  current_browser s = Some v ->
  startswith (url v) "data:text/html" = false ->
  current_browser
    (update_favorite_icon (refresh_homepage homepage_document s)) = Some v.
Proof.
  intros Hc H. unfold current_browser.
  destruct (update_favorite_icon_keeps
              (refresh_homepage homepage_document s)) as (-> & -> & _).
  fold (current_browser (refresh_homepage homepage_document s)).
  rewrite current_browser_refresh_homepage, Hc.
  cbn [fmap option_fmap option_map]. rewrite H. reflexivity.
Qed.

Lemma favorite_btn_after_toggle (s : shell) (v : web_view) :
  current_browser s = Some v ->
  url v <> "" -> url v <> "about:blank" ->
  startswith (url v) "data:text/html" = false ->
  favorite_btn
    (update_favorite_icon (refresh_homepage homepage_document s))
  = if Store.is_favorite (url v) (store s) then "star.svg"
    else "add_star.svg".
Proof.
  intros Hc H1 H2 H3. unfold update_favorite_icon.
  rewrite current_browser_refresh_homepage, Hc.
  cbn [fmap option_fmap option_map]. rewrite H3.
  unfold truthy, in_list. cbn [existsb].
  apply String.eqb_neq in H1, H2. rewrite H1, H2, H3. cbn [negb andb orb].
  change (store (refresh_homepage homepage_document s)) with (store s).
  destruct (Store.is_favorite (url v) (store s)); reflexivity.
Qed.

(** X13: on a site that is not a favorite, the star button pressed once
    stars the page (the url is a favorite, the filled star shows,
    "Added" is reported); pressed again it unstars it: the favorites
    table has its rows of before, the plain star shows, "Removed" is
    reported. *)
Theorem toggle_favorite_twice (now1 now2 : Z) (s : shell) (v : web_view) :
  current_browser s = Some v ->
  url v <> "" -> url v <> "about:blank" ->
  startswith (url v) "data:text/html" = false ->
  ~ In (url v) (List.map Store.f_url (Store.favorites (store s))) ->
  let s1 := toggle_favorite homepage_document now1 s in
  let s2 := toggle_favorite homepage_document now2 s1 in
  Store.is_favorite (url v) (store s1) = true
  /\ favorite_btn s1 = "star.svg"
  /\ Store.favorites (store s2) = Store.favorites (store s)
  /\ favorite_btn s2 = "add_star.svg"
  /\ shown s2
     = (shown s ++ [information "Favorite" "Added to favorites!";
                    information "Favorite" "Removed from favorites!"])%list.
Proof.
  intros Hc H1 H2 H3 Hnew. cbv zeta.
  assert (Store.is_favorite (url v) (store s) = false) as Hf
    by (rewrite is_favorite_existsb; apply existsb_has_url_false, Hnew).
  rewrite (toggle_favorite_on_site now1 s v Hc H1 H2 H3), Hf.
  set (d1 := snd (Store.add_favorite now1 (url v) (title v) (favicon_url v)
                    (store s))).
  set (s1 := show (information "Favorite" "Added to favorites!")
               (with_store d1 s)).
  assert (current_browser s1 = Some v) as Hc1 by exact Hc.
  assert (Store.is_favorite (url v) d1 = true) as Hf1
    by apply is_favorite_added.
  pose proof (current_browser_after_toggle s1 v Hc1 H3) as Hc2.
  destruct (update_favorite_icon_keeps
              (refresh_homepage homepage_document s1))
    as (_ & _ & Hst & Hsh & _).
  assert (store (update_favorite_icon
                   (refresh_homepage homepage_document s1)) = d1) as Hst1
    by (rewrite Hst; reflexivity).
  rewrite (toggle_favorite_on_site now2 _ v Hc2 H1 H2 H3), Hst1, Hf1.
  split; [reflexivity|].
  split; [rewrite (favorite_btn_after_toggle s1 v Hc1 H1 H2 H3);
          change (store s1) with d1; rewrite Hf1; reflexivity|].
  set (s2 := show (information "Favorite" "Removed from favorites!")
               (with_store (Store.remove_favorite (url v) d1)
                  (update_favorite_icon
                     (refresh_homepage homepage_document s1)))).
  assert (current_browser s2 = Some v) as Hc3 by exact Hc2.
  destruct (update_favorite_icon_keeps
              (refresh_homepage homepage_document s2))
    as (_ & _ & Hst2 & Hsh2 & _).
  split; [rewrite Hst2; change (store (refresh_homepage homepage_document s2))
            with (Store.remove_favorite (url v) d1);
          apply rows_after_add_remove, Hnew|].
  split.
  - rewrite (favorite_btn_after_toggle s2 v Hc3 H1 H2 H3).
    change (store s2) with (Store.remove_favorite (url v) d1).
    rewrite is_favorite_removed. reflexivity.
  - rewrite Hsh2.
    change (shown (refresh_homepage homepage_document s2))
      with (shown (update_favorite_icon
                     (refresh_homepage homepage_document s1))
            ++ [information "Favorite" "Removed from favorites!"])%list.
    rewrite Hsh. cbn [shown refresh_homepage with_tabs with_home_url s1 show].
    rewrite <- List.app_assoc. reflexivity.
Qed.

End ToggleFacts.

Lemma refresh_homepage_tab_witness :
  exists v',
    Shell.tabs (Shell.refresh_homepage (fun _ => "%3Chtml%3E") Shell.example_shell) !! 0%nat
    = Some v'
    /\ v' = Shell.example_view.
Proof.
  destruct (refresh_homepage_tab (fun _ => "%3Chtml%3E") Shell.example_shell 0
              Shell.example_view eq_refl) as (v' & H & Hsite & _).
  exists v'. split; [exact H | apply Hsite; reflexivity].
Defined.

Lemma toggle_favorite_twice_witness :
  let s := Shell.example_shell in
  let s1 := Shell.toggle_favorite (fun _ => "%3Chtml%3E") 1000 s in
  let s2 := Shell.toggle_favorite (fun _ => "%3Chtml%3E") 1001 s1 in
  Store.is_favorite "https://example.com/" (Shell.store s1) = true
  /\ Shell.favorite_btn s1 = "star.svg"
  /\ Store.favorites (Shell.store s2) = Store.favorites (Shell.store s)
  /\ Shell.favorite_btn s2 = "add_star.svg"
  /\ Shell.shown s2
     = (Shell.shown s
        ++ [Shell.information "Favorite" "Added to favorites!";
            Shell.information "Favorite" "Removed from favorites!"])%list.
Proof.
  apply (toggle_favorite_twice (fun _ => "%3Chtml%3E") 1000 1001
           Shell.example_shell Shell.example_view).
  - reflexivity.
  - discriminate.
  - discriminate.
  - reflexivity.
  - cbn. tauto.
Defined.

(** ** Where the address bar and the search box navigate *)

Section NavigationFacts.
Import Py Classifier Toolbar.

Lemma startswith_any_app (scheme rest : string) (l : list string) :
  In scheme l -> startswith_any (scheme ++ rest) l = true.
Proof.
  intros H. unfold startswith_any. apply existsb_exists. exists scheme.
  split; [exact H|]. apply startswith_iff. exists rest; reflexivity.
Qed.

(** X14: whatever is typed in the address bar, the string from which
    [navigate_to_url] builds the [QUrl] it hands to the view starts with
    [http://] or [https://]. *)
Theorem navigate_target_scheme (text engine target : string) :
  navigate_target text engine = Some target ->
  startswith_any target ["http://"; "https://"] = true.
Proof.
  unfold navigate_target.
  destruct (String.eqb text ""); [discriminate|].
  destruct (is_url text).
  - destruct (startswith_any text ["http://"; "https://"]) eqn:E;
      intros [= <-]; [exact E|].
    apply (startswith_any_app "https://" text). cbn. tauto.
  - unfold search_engines.
    destruct (String.eqb engine "Google");
      [|destruct (String.eqb engine "DuckDuckGo");
        [|destruct (String.eqb engine "Bing")]];
      cbn [option_map]; intros [= <-].
    + apply (startswith_any_app "https://"
               ("www.google.com/search?q=" ++ text)). cbn. tauto.
    + apply (startswith_any_app "https://" ("duckduckgo.com/?q=" ++ text)).
      cbn. tauto.
    + apply (startswith_any_app "https://"
               ("www.bing.com/search?q=" ++ text)). cbn. tauto.
Qed.

Lemma navigate_target_scheme_witness :
  startswith_any "https://example.com" ["http://"; "https://"] = true.
Proof.
  apply (navigate_target_scheme "example.com" "Google" "https://example.com").
  reflexivity.
Defined.

Lemma is_url_scheme_no_space (scheme rest : string) :
  In scheme ["http://"; "https://"; "file://"; "ftp://"] ->
  contains " " rest = false ->
  is_url (scheme ++ rest) = true.
Proof.
  intros Hs Hn. rewrite is_url_tests.
  assert (hasScheme (scheme ++ rest) = true) as ->.
  { rewrite <- startswith_any_schemes. unfold startswith_any.
    apply existsb_exists. exists scheme. split; [exact Hs|].
    apply startswith_iff. exists rest; reflexivity. }
  assert (hasSpace (scheme ++ rest) = false) as ->;
    [|rewrite orb_true_r; reflexivity].
  unfold hasSpace.
  destruct Hs as [<-|[<-|[<-|[<-|[]]]]]; cbn; exact Hn.
Qed.

(** X15: a [file://] or [ftp://] url without a space typed in the address
    bar is taken for a URL and then put behind [https://]; typed in the
    home page's search box, with or without a space, it is opened as it
    is. *)
Theorem file_and_ftp_urls (encodeURIComponent : string -> string)
    (scheme rest engine : string) :
  In scheme ["file://"; "ftp://"] ->
  contains " " rest = false ->
  navigate_target (scheme ++ rest) engine
  = Some ("https://" ++ scheme ++ rest)
  /\ performSearch encodeURIComponent (scheme ++ rest) engine
     = Some (scheme ++ rest).
Proof.
  intros Hs Hn.
  assert (is_url (scheme ++ rest) = true) as Hu
    by (apply is_url_scheme_no_space; [cbn in *; tauto | exact Hn]).
  assert (hasScheme (scheme ++ rest) = true) as Hsch.
  { rewrite <- startswith_any_schemes. apply startswith_any_app.
    cbn in *. tauto. }
  unfold navigate_target, performSearch, isUrl. rewrite Hu, Hsch.
  destruct Hs as [<-|[<-|[]]]; split; reflexivity.
Qed.

Lemma file_and_ftp_urls_witness :
  navigate_target ("file://" ++ "/home/user/page.html") "Google"
  = Some ("https://" ++ "file://" ++ "/home/user/page.html")
  /\ performSearch (fun q => q) ("file://" ++ "/home/user/page.html")
       "Google"
     = Some ("file://" ++ "/home/user/page.html").
Proof.
  apply (file_and_ftp_urls (fun q => q) "file://" "/home/user/page.html"
           "Google").
  - cbn. tauto.
  - reflexivity.
Defined.

(** X16: the selected search engine is always one of the three of the
    table, whatever text the selector reports, so a non-empty entry in
    the address bar always has a target. *)
Theorem search_engine_stays_known (engine_text current text : string) :
  In current ["Google"; "DuckDuckGo"; "Bing"] ->
  text <> "" ->
  In (change_search_engine engine_text current)
     ["Google"; "DuckDuckGo"; "Bing"]
  /\ exists target,
       navigate_target text (change_search_engine engine_text current)
       = Some target.
Proof.
  intros Hc Ht.
  assert (In (change_search_engine engine_text current)
             ["Google"; "DuckDuckGo"; "Bing"]) as Hin.
  { unfold change_search_engine.
    destruct (contains "Google" engine_text); [cbn; tauto|].
    destruct (contains "DuckDuckGo" engine_text); [cbn; tauto|].
    destruct (contains "Bing" engine_text); [cbn; tauto | exact Hc]. }
  split; [exact Hin|].
  unfold navigate_target. apply String.eqb_neq in Ht. rewrite Ht.
  destruct (is_url text); [eexists; reflexivity|].
  destruct Hin as [<-|[<-|[<-|[]]]]; eexists; reflexivity.
Qed.

Lemma search_engine_stays_known_witness :
  In (change_search_engine "DuckDuckGo" "Google")
     ["Google"; "DuckDuckGo"; "Bing"]
  /\ exists target,
       navigate_target "rocq prover"
         (change_search_engine "DuckDuckGo" "Google") = Some target.
Proof.
  apply (search_engine_stays_known "DuckDuckGo" "Google" "rocq prover").
  - cbn. tauto.
  - discriminate.
Defined.

End NavigationFacts.

(** ** Zoom caps *)

Section ZoomCapFacts.
Import Py Shell.

(** X17: with a current view, [zoom_in] leaves it a factor that is not
    above 3.0 and [zoom_out] one that is not below 0.25, whatever the
    factor was; without a current view both return the shell as it
    is. *)
Theorem zoom_stays_within_caps (s : shell) :
  match current_browser s with
  | Some _ =>
      exists z_in z_out,
        current_zoom (zoom_in s) = Some z_in
        /\ PrimFloat.ltb lit_3_0 z_in = false
        /\ current_zoom (zoom_out s) = Some z_out
        /\ PrimFloat.ltb z_out lit_0_25 = false
  | None => zoom_in s = s /\ zoom_out s = s
  end.
Proof.
  destruct (current_browser s) as [v|] eqn:E.
  - unfold current_zoom, zoom_in, zoom_out.
    rewrite E, !current_browser_on_current, E.
    cbn [fmap option_fmap option_map zoomFactor setZoomFactor].
    unfold py_min, py_max. eexists; eexists.
    split; [reflexivity|]. split; [|split; [reflexivity|]].
    + destruct (PrimFloat.ltb lit_3_0 (zoomFactor v + lit_0_1)) eqn:L;
        [reflexivity | exact L].
    + destruct (PrimFloat.ltb (zoomFactor v - lit_0_1) lit_0_25) eqn:L;
        [reflexivity | exact L].
  - unfold zoom_in, zoom_out. rewrite E. split; reflexivity.
Qed.

End ZoomCapFacts.

(** ** More on the resize geometry *)

Section ResizeFacts.
Import Py Geometry Pointer.
Local Open Scope Z_scope.

(** X18: [get_resize_direction] answers [None] exactly for a pointer
    strictly inside the margins, and a direction otherwise names the left
    (top) edge exactly when the pointer is within the margin of the left
    (top) border, the right (bottom) edge exactly when it is within the
    margin of the right (bottom) border and not of the left (top) one. *)
Theorem get_resize_direction_edges (pos : QPoint) (w : window) :
  match get_resize_direction pos w with
  | None =>
      resize_margin w < px pos < width (geometry w) - resize_margin w
      /\ resize_margin w < py pos < height (geometry w) - resize_margin w
  | Some d =>
      (contains "left" (name d) = true <-> px pos <= resize_margin w)
      /\ (contains "top" (name d) = true <-> py pos <= resize_margin w)
      /\ (contains "right" (name d) = true
          <-> width (geometry w) - resize_margin w <= px pos
              /\ ~ px pos <= resize_margin w)
      /\ (contains "bottom" (name d) = true
          <-> height (geometry w) - resize_margin w <= py pos
              /\ ~ py pos <= resize_margin w)
  end.
Proof.
  unfold get_resize_direction.
  destruct (Z.leb_spec (px pos) (resize_margin w));
    destruct (Z.leb_spec (width (geometry w) - resize_margin w) (px pos));
    destruct (Z.leb_spec (py pos) (resize_margin w));
    destruct (Z.leb_spec (height (geometry w) - resize_margin w) (py pos));
    cbn [andb];
    try (split; lia);
    repeat match goal with
           | |- context [contains ?a (name ?d)] =>
               rewrite (proj1 (direction_edges d))
               || rewrite (proj1 (proj2 (direction_edges d)))
               || rewrite (proj1 (proj2 (proj2 (direction_edges d))))
               || rewrite (proj2 (proj2 (proj2 (direction_edges d))))
           end;
    repeat split; intros; try discriminate; try reflexivity; try lia.
Qed.

(** X19: a resize move never shifts the border opposite to the dragged
    one: with a left edge active the right border stays where it was,
    with any other direction the left border does; likewise for top and
    bottom. *)
Theorem resized_keeps_opposite_border (d : direction) (min_w min_h : Z)
    (geo : QRect) (delta : QPoint) :
  match d with
  | left | top_left | bottom_left =>
      x (resized d min_w min_h geo delta)
      + width (resized d min_w min_h geo delta) = x geo + width geo
  | _ => x (resized d min_w min_h geo delta) = x geo
  end
  /\ match d with
     | top | top_left | top_right =>
         y (resized d min_w min_h geo delta)
         + height (resized d min_w min_h geo delta) = y geo + height geo
     | _ => y (resized d min_w min_h geo delta) = y geo
     end.
Proof.
  pose proof (resized_x_width d min_w min_h geo delta) as Ex.
  pose proof (resized_y_height d min_w min_h geo delta) as Ey.
  destruct d;
    repeat match goal with
           | H : context [?a <=? ?b] |- _ => destruct (Z.leb_spec a b)
           end;
    pose proof (f_equal fst Ex) as Ex1; pose proof (f_equal snd Ex) as Ex2;
    pose proof (f_equal fst Ey) as Ey1; pose proof (f_equal snd Ey) as Ey2;
    cbn [fst snd] in Ex1, Ex2, Ey1, Ey2; lia.
Qed.

(** An 800x600 window with minimum 400x300 dragged far inwards from the
    bottom right corner. *)
Lemma resized_respects_minimum_witness :
  400 <= width (resized bottom_right 400 300
                  {| x := 100; y := 100; width := 800; height := 600 |}
                  {| px := -1000; py := -1000 |})
  /\ 300 <= height (resized bottom_right 400 300
                      {| x := 100; y := 100; width := 800; height := 600 |}
                      {| px := -1000; py := -1000 |}).
Proof.
  apply (resized_respects_minimum bottom_right 400 300
           {| x := 100; y := 100; width := 800; height := 600 |}
           {| px := -1000; py := -1000 |}); cbn; lia.
Defined.

Lemma handle_anchored (e : mouse_event) (w : window) :
  anchored w -> exists w', handle e w = Returned w' /\ anchored w'.
Proof.
  intros Hw. destruct e as [native pos global|global|].
  - eexists; split; [reflexivity|].
    unfold anchored, mousePressEvent.
    destruct (maximized w); cbn [negb]; [exact Hw|].
    destruct (get_resize_direction pos w); cbn; [|exact Hw].
    destruct native; [exact Hw|]. intros _. split; discriminate.
  - unfold handle, mouseMoveEvent.
    destruct (resizing w) eqn:Er; [|eexists; split; [reflexivity|exact Hw]].
    destruct (resize_direction w); [|eexists; split; [reflexivity|exact Hw]].
    destruct (Hw Er) as [Hp Hg].
    destruct (resize_start_pos w); [|destruct Hp; reflexivity].
    destruct (resize_start_geometry w); [|destruct Hg; reflexivity].
    eexists; split; [reflexivity | exact Hw].
  - eexists; split; [reflexivity|]. unfold anchored. cbn. discriminate.
Qed.

(** X21: from a window whose resize anchor is set whenever [resizing] is
    on (as at start-up), no sequence of press, move and release events
    makes a handler raise, and the window stays such. *)
Theorem mouse_events_never_raise (es : list mouse_event) (w : window) :
  anchored w ->
  exists w', handle_all es w = Returned w' /\ anchored w'.
Proof.
  revert w; induction es as [|e es IH]; intros w Hw.
  - exists w. split; [reflexivity | exact Hw].
  - destruct (handle_anchored e w Hw) as (w1 & E & Hw1).
    cbn [handle_all]. rewrite E. exact (IH w1 Hw1).
Qed.

Lemma mouse_events_never_raise_witness :
  exists w',
    handle_all
      [Press false {| px := 5; py := 450 |} {| px := 105; py := 550 |};
       Move {| px := 155; py := 550 |}; Release;
       Move {| px := 200; py := 550 |}] initial_window = Returned w'
    /\ anchored w'.
Proof.
  apply (mouse_events_never_raise
           [Press false {| px := 5; py := 450 |} {| px := 105; py := 550 |};
            Move {| px := 155; py := 550 |}; Release;
            Move {| px := 200; py := 550 |}] initial_window).
  unfold anchored. cbn. discriminate.
Defined.

(** X22: a release ends the resize whatever the state was: the moves that
    follow it leave the window as the release left it, with the geometry
    it had. *)
Theorem release_ends_resize (globals : list QPoint) (w : window) :
  handle_all (Release :: List.map Move globals) w
  = Returned (mouseReleaseEvent w)
  /\ geometry (mouseReleaseEvent w) = geometry w.
Proof.
  split; [|reflexivity]. cbn [handle_all handle].
  induction globals as [|g gs IH]; [reflexivity|].
  cbn [List.map handle_all handle]. exact IH.
Qed.

End ResizeFacts.

(** ** Dragging by the title bar *)

Section TitleBarFacts.
Import Geometry TitleBar Pointer.
Local Open Scope Z_scope.

Lemma moves_keep_drag (globals : list QPoint) (t : title_bar) (d : QPoint) :
  drag_position t = Some d ->
  parent_maximized t = false ->
  drag_position (bar_handle_all (List.map (BarMove true) globals) t) = Some d
  /\ parent_maximized
       (bar_handle_all (List.map (BarMove true) globals) t) = false.
Proof.
  revert t; induction globals as [|g gs IH]; intros t Hd Hm.
  - split; assumption.
  - unfold bar_handle_all in *. cbn [List.map List.fold_left bar_handle].
    apply IH; unfold mouseMoveEvent; rewrite Hd, Hm; cbn; assumption.
Qed.

(** X23: a drag by the title bar moves the window by what the pointer
    moved: after a press off the resize edge of a window that is not
    maximized (no native move) and any moves with the left button held,
    the window's position is its position at the press plus the pointer's
    displacement since the press. *)
Theorem title_bar_drag_follows_pointer (pos global last : QPoint)
    (globals : list QPoint) (t : title_bar) :
  is_on_resize_edge pos t = false ->
  parent_maximized t = false ->
  parent_pos
    (bar_handle_all
       (BarPress false pos global
        :: List.map (BarMove true) globals ++ [BarMove true last])%list t)
  = {| px := px (parent_pos t) + (px last - px global);
       py := py (parent_pos t) + (py last - py global) |}.
Proof.
  intros He Hm. unfold bar_handle_all.
  cbn [List.fold_left bar_handle]. rewrite List.fold_left_app.
  cbn [List.fold_left bar_handle].
  set (t1 := mousePressEvent false pos global t).
  assert (drag_position t1
          = Some {| px := px global - px (parent_pos t);
                    py := py global - py (parent_pos t) |}) as Hd
    by (unfold t1, mousePressEvent; rewrite He, Hm; reflexivity).
  assert (parent_maximized t1 = false) as Hm1
    by (unfold t1, mousePressEvent; rewrite He, Hm; exact Hm).
  destruct (moves_keep_drag globals t1 _ Hd Hm1) as [Hd2 Hm2].
  unfold bar_handle_all in Hd2, Hm2.
  unfold mouseMoveEvent. rewrite Hd2, Hm2. cbn. f_equal; lia.
Qed.

Lemma title_bar_drag_follows_pointer_witness :
  parent_pos
    (bar_handle_all
       [BarPress false {| px := 300; py := 20 |} {| px := 400; py := 120 |};
        BarMove true {| px := 410; py := 125 |};
        BarMove true {| px := 450; py := 150 |}]
       {| parent_pos := {| px := 100; py := 100 |};
          parent_maximized := false; bar_width := 1400; bar_margin := 8;
          drag_position := None |})
  = {| px := 100 + (450 - 400); py := 100 + (150 - 120) |}.
Proof.
  apply (title_bar_drag_follows_pointer
           {| px := 300; py := 20 |} {| px := 400; py := 120 |}
           {| px := 450; py := 150 |} [{| px := 410; py := 125 |}]
           {| parent_pos := {| px := 100; py := 100 |};
              parent_maximized := false; bar_width := 1400; bar_margin := 8;
              drag_position := None |});
    reflexivity.
Defined.

Lemma bar_handle_maximized (e : bar_event) (t : title_bar) :
  parent_maximized t = true ->
  parent_maximized (bar_handle e t) = true
  /\ parent_pos (bar_handle e t) = parent_pos t.
Proof.
  intros Hm. destruct e as [native pos global|left_only global|];
    cbn [bar_handle].
  - unfold mousePressEvent. destruct (is_on_resize_edge pos t);
      [split; [exact Hm | reflexivity]|].
    rewrite Hm. cbn. split; [exact Hm | reflexivity].
  - unfold mouseMoveEvent. destruct left_only, (drag_position t);
      rewrite ?Hm; cbn; split; (exact Hm || reflexivity).
  - split; [exact Hm | reflexivity].
Qed.

(** X24: while the window is maximized, no sequence of title-bar presses,
    moves and releases moves it. *)
Theorem title_bar_maximized_stays (es : list bar_event) (t : title_bar) :
  parent_maximized t = true ->
  parent_pos (bar_handle_all es t) = parent_pos t.
Proof.
  revert t; induction es as [|e es IH]; intros t Hm; [reflexivity|].
  unfold bar_handle_all in *. cbn [List.fold_left].
  destruct (bar_handle_maximized e t Hm) as [Hm1 Hp].
  rewrite (IH _ Hm1). exact Hp.
Qed.

Lemma title_bar_maximized_stays_witness :
  parent_pos
    (bar_handle_all
       [BarPress true {| px := 300; py := 20 |} {| px := 300; py := 20 |};
        BarMove true {| px := 450; py := 150 |}; BarRelease]
       {| parent_pos := {| px := 0; py := 0 |};
          parent_maximized := true; bar_width := 1920; bar_margin := 8;
          drag_position := None |})
  = {| px := 0; py := 0 |}.
Proof.
  apply (title_bar_maximized_stays
           [BarPress true {| px := 300; py := 20 |} {| px := 300; py := 20 |};
            BarMove true {| px := 450; py := 150 |}; BarRelease]
           {| parent_pos := {| px := 0; py := 0 |};
              parent_maximized := true; bar_width := 1920; bar_margin := 8;
              drag_position := None |}).
  reflexivity.
Defined.

End TitleBarFacts.

(** ** Edge flags *)

Section EdgeFacts.
Import Py Geometry Edges.
Local Open Scope Z_scope.

(** X25: the flags [get_qt_edges] gives for two directions are equal only
    if the directions are, and they are never empty, so a window that
    offers [startSystemResize] always gets the native resize. *)
Theorem get_qt_edges_distinct (d d' : direction) :
  get_qt_edges (name d) = get_qt_edges (name d') ->
  d = d' /\ 0 < get_qt_edges (name d).
Proof.
  destruct d, d'; vm_compute; intros H;
    (discriminate H || (split; reflexivity)).
Qed.

Lemma get_qt_edges_distinct_witness :
  top_left = top_left /\ 0 < get_qt_edges (name top_left).
Proof.
  apply (get_qt_edges_distinct top_left top_left). reflexivity.
Defined.

End EdgeFacts.

(** ** The cards of the home page *)

Section HomeCardFacts.
Import Py HomeCards.

Lemma string_app_assoc (a b c : string) : (a ++ b) ++ c = a ++ b ++ c.
Proof.
  induction a as [|x a IH]; [reflexivity|].
  cbn [String.append]. rewrite IH. reflexivity.
Qed.

Lemma replace_char_app (old : ascii) (new a b : string) :
  replace_char old new (a ++ b)
  = replace_char old new a ++ replace_char old new b.
Proof.
  induction a as [|c a IH]; [reflexivity|].
  cbn [String.append replace_char]. rewrite IH.
  destruct (Ascii.eqb c old); [|reflexivity].
  symmetry. apply string_app_assoc.
Qed.

Lemma escape_cons (c : ascii) (rest : string) :
  escape (String c rest) = escape (String c "") ++ escape rest.
Proof.
  unfold escape. change (String c rest) with (String c "" ++ rest).
  rewrite !replace_char_app. reflexivity.
Qed.

Lemma list_ascii_app (a b : string) :
  list_ascii_of_string (a ++ b)
  = (list_ascii_of_string a ++ list_ascii_of_string b)%list.
Proof.
  induction a as [|c a IH]; [reflexivity|].
  cbn [String.append list_ascii_of_string]. rewrite IH. reflexivity.
Qed.

Lemma escape_one_safe (c : ascii) :
  List.Forall (fun c => c <> "<"%char /\ c <> ">"%char /\ c <> "034"%char)
              (list_ascii_of_string (escape (String c ""))).
Proof.
  unfold escape. cbn [replace_char].
  destruct (Ascii.eqb_spec c "&") as [->|Hamp]; [repeat constructor; discriminate|].
  cbn [replace_char].
  destruct (Ascii.eqb_spec c "<") as [->|Hlt]; [repeat constructor; discriminate|].
  cbn [replace_char].
  destruct (Ascii.eqb_spec c ">") as [->|Hgt]; [repeat constructor; discriminate|].
  cbn [replace_char].
  destruct (Ascii.eqb_spec c "034") as [->|Hq]; [repeat constructor; discriminate|].
  repeat constructor; assumption.
Qed.

Lemma escape_safe (title : string) :
  List.Forall (fun c => c <> "<"%char /\ c <> ">"%char /\ c <> "034"%char)
              (list_ascii_of_string (escape title)).
Proof.
  induction title as [|c rest IH]; [constructor|].
  rewrite escape_cons, list_ascii_app. apply List.Forall_app.
  split; [apply escape_one_safe | exact IH].
Qed.

(** X26: the title text of a favorite's card never contains [<], [>] or a
    double quote, whatever the favorite's title and url are. *)
Theorem card_title_has_no_markup (fav_url fav_title : string) :
  List.Forall (fun c => c <> "<"%char /\ c <> ">"%char /\ c <> "034"%char)
              (list_ascii_of_string (card_title fav_url fav_title)).
Proof. unfold card_title. apply escape_safe. Qed.

(** X27: only the first eight favorites reach the home page: with eight
    or more listed, further ones change nothing in the section. *)
Theorem favorites_html_first_eight
    (favorites more : list Store.favorite_tuple) :
  (8 <= List.length favorites)%nat ->
  favorites_html (favorites ++ more) = favorites_html favorites.
Proof.
  intros H. unfold favorites_html.
  destruct favorites as [|fav favorites]; [cbn in H; lia|].
  cbn [app].
  change (fav :: (favorites ++ more)%list)
    with ((fav :: favorites) ++ more)%list.
  rewrite take_app_le by exact H. reflexivity.
Qed.

Lemma favorites_html_first_eight_witness :
  favorites_html
    (List.repeat (1%Z, "https://example.com/", "Example Domain", None) 8
     ++ [(2%Z, "https://rocq-prover.org/", "Rocq", None)])
  = favorites_html
      (List.repeat (1%Z, "https://example.com/", "Example Domain", None) 8).
Proof.
  apply (favorites_html_first_eight
           (List.repeat (1%Z, "https://example.com/", "Example Domain", None)
                        8)
           [(2%Z, "https://rocq-prover.org/", "Rocq", None)]).
  cbn. lia.
Defined.

End HomeCardFacts.

(** ** The home page follows the favorites *)

Section HomeSyncFacts.
Import Py Shell Dialogs.

Variable homepage_document : list Store.favorite_tuple -> string.

Lemma favorites_refresh_list_keeps (s : shell) :
  store (favorites_refresh_list s) = store s
  /\ home_url (favorites_refresh_list s) = home_url s.
Proof.
  unfold favorites_refresh_list.
  destruct (Store.get_favorites (store s)); split; reflexivity.
Qed.

Lemma history_refresh_list_home (s : shell) :
  home_url (history_refresh_list s) = home_url s.
Proof.
  unfold history_refresh_list. destruct (Store.history (store s));
    reflexivity.
Qed.

(** The home document depends on the favorites of the store only. *)
Lemma create_homepage_same_favorites (s s' : shell) :
  Store.favorites (store s') = Store.favorites (store s) ->
  create_vice_city_homepage homepage_document s'
  = create_vice_city_homepage homepage_document s.
Proof.
  intros H. unfold create_vice_city_homepage, Store.get_favorites.
  rewrite H. reflexivity.
Qed.

Lemma refreshed_in_sync (s : shell) :
  home_url (update_favorite_icon (refresh_homepage homepage_document s))
  = create_vice_city_homepage homepage_document
      (update_favorite_icon (refresh_homepage homepage_document s)).
Proof.
  destruct (update_favorite_icon_keeps
              (refresh_homepage homepage_document s))
    as (_ & _ & Hst & _ & Hh).
  rewrite Hh. symmetry. apply create_homepage_same_favorites.
  rewrite Hst. reflexivity.
Qed.

(** X28: the home url is always the document generated from the current
    favorites: if it is so before, it is so after the star button, after
    a deletion from the Starred Pages dialog (confirmed or not), after a
    visit is recorded and after a history clear request. *)
Theorem home_page_follows_favorites (now local_now : Z) (r : reply)
    (fav_url clear_type : string) (browser : web_view) (s : shell) :
  home_url s = create_vice_city_homepage homepage_document s ->
  let in_sync s' :=
    home_url s' = create_vice_city_homepage homepage_document s' in
  in_sync (toggle_favorite homepage_document now s)
  /\ in_sync (delete_favorite_and_refresh homepage_document r fav_url s)
  /\ in_sync (save_to_history now browser s)
  /\ in_sync (clear_history_dialog clear_type r local_now s).
Proof.
  intros H. cbv zeta. split; [|split; [|split]].
  - unfold toggle_favorite.
    destruct (current_browser s) as [v|]; [|exact H].
    destruct (_ || _); [exact H|].
    destruct (Store.is_favorite (url v) (store s)); [apply refreshed_in_sync|].
    destruct (Store.add_favorite _ _ _ _ _) as [[|] d] eqn:E;
      [apply refreshed_in_sync|].
    unfold Store.add_favorite, Store.insert_favorite in E.
    destruct (existsb _ _); [|discriminate E]. injection E as <-.
    exact H.
  - unfold delete_favorite_and_refresh. destruct r; [|exact H].
    destruct (favorites_refresh_list_keeps
                (refresh_homepage homepage_document
                   (with_store (Store.remove_favorite fav_url (store s)) s)))
      as [Hst Hh].
    rewrite Hh. symmetry. apply create_homepage_same_favorites.
    rewrite Hst. reflexivity.
  - unfold save_to_history. destruct (_ && _); [|exact H].
    cbn [home_url with_store]. rewrite H.
    symmetry. apply create_homepage_same_favorites. reflexivity.
  - destruct (clear_history_dialog_keeps clear_type r local_now s)
      as [Hf _].
    rewrite (create_homepage_same_favorites s _ Hf), <- H.
    unfold clear_history_dialog. destruct (_ || _); [|reflexivity].
    destruct r; [|reflexivity]. rewrite history_refresh_list_home.
    reflexivity.
Qed.

End HomeSyncFacts.

Lemma home_page_follows_favorites_witness :
  let doc := fun _ : list Store.favorite_tuple => "%3Chtml%3E%3C/html%3E" in
  let s := Shell.example_shell in
  Shell.home_url (Shell.toggle_favorite doc 1000 s)
  = Shell.create_vice_city_homepage doc (Shell.toggle_favorite doc 1000 s)
  /\ Shell.home_url
       (Dialogs.delete_favorite_and_refresh doc Dialogs.Yes
          "https://example.com/" s)
     = Shell.create_vice_city_homepage doc
         (Dialogs.delete_favorite_and_refresh doc Dialogs.Yes
            "https://example.com/" s)
  /\ Shell.home_url (Shell.save_to_history 1000 Shell.example_view s)
     = Shell.create_vice_city_homepage doc
         (Shell.save_to_history 1000 Shell.example_view s)
  /\ Shell.home_url
       (Dialogs.clear_history_dialog "all" Dialogs.Yes 2000 s)
     = Shell.create_vice_city_homepage doc
         (Dialogs.clear_history_dialog "all" Dialogs.Yes 2000 s).
Proof.
  apply (home_page_follows_favorites
           (fun _ => "%3Chtml%3E%3C/html%3E") 1000 2000 Dialogs.Yes
           "https://example.com/" "all" Shell.example_view
           Shell.example_shell).
  reflexivity.
Defined.
